(** * The BIDS-app wrapper of pydra-compose-bids-app-wrapper

    A shallow embedding of [src/pydra/compose/bids_app_wrapper/builder.py]:
    the workflow constructor [BidsApp] and its two Python tasks [ToBids]
    (stage-in) and [ExtractBids] (extract-out), with the parts of the Python
    standard library they call ([shlex.split], [pathlib], [shutil.copytree],
    [tempfile.mkdtemp], [logging]).  The dataset store (frametree) is an
    external collaborator and enters as an interface. *)

From stdpp Require Import base option list strings pretty gmap.
From Stdlib Require Import Ascii String ZArith Lia.

Set Warnings "-register-all".

Local Open Scope string_scope.
Local Open Scope list_scope.

(** ** Python values, exceptions and results *)

(** The exceptions the modelled code can raise. *)
Inductive Exc : Type :=
  | NameError (name : string)
  | KeyError (key : string)
  | TypeError (msg : string)
  | ValueError (msg : string)
  | IndexError (msg : string)
  | FileExistsError (path : string)
  | FileNotFoundError (path : string)
  | NotADirectoryError (path : string)
  | StoreError (msg : string).

(** The outcome of a call: a returned value or a raised exception. *)
Inductive Result (A : Type) : Type :=
  | Ok (a : A)
  | Raise (e : Exc).
Arguments Ok {A} a.
Arguments Raise {A} e.

Definition is_ok {A} (r : Result A) : bool :=
  match r with Ok _ => true | Raise _ => false end.

(** The values that flow through the tasks: [attrs.NOTHING] (the explicit
    "absent" marker), strings (paths included), booleans and tuples. *)
Inductive Value : Type :=
  | NOTHING
  | Str (s : string)
  | Bool (b : bool)
  | Tuple (vs : list Value).

Definition is_NOTHING (v : Value) : bool :=
  match v with NOTHING => true | _ => false end.

(** ** [shlex.split]

    [shlex.split(s)] runs a POSIX-mode lexer with [whitespace_split = True]
    and no comment characters.  The lexer is the state machine of
    [shlex.read_token]; [lex] runs it over the whole input and collects the
    tokens, which is what [list(lex)] does. *)

Definition dquote : ascii := "034"%char.
Definition squote : ascii := "'"%char.
Definition backslash : ascii := "\"%char.

Definition ascii_eqb (a b : ascii) : bool := Ascii.eqb a b.

(** [shlex.whitespace]: space, tab, carriage return, line feed. *)
Definition is_whitespace (c : ascii) : bool :=
  ascii_eqb c " "%char || ascii_eqb c "009"%char
  || ascii_eqb c "013"%char || ascii_eqb c "010"%char.

(** [shlex.quotes] *)
Definition is_quote (c : ascii) : bool := ascii_eqb c squote || ascii_eqb c dquote.

(** [shlex.escape] *)
Definition is_escape (c : ascii) : bool := ascii_eqb c backslash.

(** [shlex.escapedquotes]: the quotes inside which the escape is active. *)
Definition is_escapedquote (c : ascii) : bool := ascii_eqb c dquote.

(** [self.state]: [' '], ['a'], a quote character or an escape character. *)
Inductive LexState : Type :=
  | LexSpace
  | LexWord
  | LexQuote (q : ascii)
  | LexEscape (e : ascii).

Definition snoc_char (tok : string) (c : ascii) : string := tok +:+ String c "".

(** [lex st esc tok quoted acc s]: [st] is [self.state], [esc] the local
    [escapedstate], [tok] is [self.token], [quoted] the local flag, [acc] the
    tokens returned so far (latest first) and [s] the unread input. *)
Fixpoint lex (st esc : LexState) (tok : string) (quoted : bool)
    (acc : list string) (s : string) : Result (list string) :=
  match s with
  | EmptyString =>
      match st with
      | LexSpace | LexWord =>
          (* end of file: the pending token is returned unless it is empty
             and unquoted *)
          Ok (rev (if negb (String.eqb tok "") || quoted then tok :: acc else acc))
      | LexQuote _ => Raise (ValueError "No closing quotation")
      | LexEscape _ => Raise (ValueError "No escaped character")
      end
  | String c s' =>
      match st with
      | LexSpace =>
          if is_whitespace c then
            if negb (String.eqb tok "") || quoted
            then lex LexSpace LexSpace "" false (tok :: acc) s'
            else lex LexSpace esc tok quoted acc s'
          else if is_escape c then lex (LexEscape c) LexWord tok quoted acc s'
          else if is_quote c then lex (LexQuote c) esc tok quoted acc s'
          else lex LexWord esc (String c "") quoted acc s'
      | LexQuote q =>
          if ascii_eqb c q then lex LexWord esc tok true acc s'
          else if is_escape c && is_escapedquote q
          then lex (LexEscape c) (LexQuote q) tok true acc s'
          else lex (LexQuote q) esc (snoc_char tok c) true acc s'
      | LexEscape e =>
          let tok' :=
            match esc with
            | LexQuote q =>
                if negb (ascii_eqb c e) && negb (ascii_eqb c q)
                then snoc_char tok e else tok
            | _ => tok
            end in
          lex esc esc (snoc_char tok' c) quoted acc s'
      | LexWord =>
          if is_whitespace c then
            if negb (String.eqb tok "") || quoted
            then lex LexSpace LexSpace "" false (tok :: acc) s'
            else lex LexSpace esc tok quoted acc s'
          else if is_quote c then lex (LexQuote c) esc tok quoted acc s'
          else if is_escape c then lex (LexEscape c) LexWord tok quoted acc s'
          else lex LexWord esc (snoc_char tok c) quoted acc s'
      end
  end.

Definition shlex_split (s : string) : Result (list string) :=
  lex LexSpace LexSpace "" false [] s.

(** ** [pathlib]

    A pure POSIX path: the anchor (the empty string for a relative path, one
    slash, or exactly two slashes, which POSIX keeps apart) and the
    components.  Parsing drops empty components and single dots, as
    [PurePosixPath] does. *)

Record Path : Type := mkPath { anchor : string; parts : list string }.

Fixpoint split_on (sep : ascii) (cur : string) (s : string) : list string :=
  match s with
  | EmptyString => [cur]
  | String c s' =>
      if ascii_eqb c sep then cur :: split_on sep "" s'
      else split_on sep (snoc_char cur c) s'
  end.

Definition is_component (p : string) : bool :=
  negb (String.eqb p "") && negb (String.eqb p ".").

Definition anchor_of (s : string) : string :=
  match s with
  | String "/" (String "/" (String "/" _)) => "/"
  | String "/" (String "/" _) => "//"
  | String "/" _ => "/"
  | _ => ""
  end.

(** [Path(s)] *)
Definition Path_of (s : string) : Path :=
  mkPath (anchor_of s) (List.filter is_component (split_on "/" "" s)).

(** [p / q] for two paths: an anchored right operand replaces the left one. *)
Definition joinpath (p q : Path) : Path :=
  if String.eqb (anchor q) "" then mkPath (anchor p) (parts p ++ parts q) else q.

(** [p / s] for a string operand. *)
Definition truediv (p : Path) (s : string) : Path := joinpath p (Path_of s).

Declare Scope path_scope.
Delimit Scope path_scope with path.
Notation "p </> s" := (truediv p s) (at level 40, left associativity) : path_scope.

Fixpoint join_with (sep : string) (l : list string) : string :=
  match l with
  | [] => ""
  | [x] => x
  | x :: l' => x +:+ sep +:+ join_with sep l'
  end.

(** [str(p)] *)
Definition str_of (p : Path) : string :=
  match anchor p, parts p with
  | EmptyString, [] => "."
  | a, ps => a +:+ join_with "/" ps
  end.

(** ** The file system

    A file system maps the key of a path (its anchor followed by its
    components) to what is there.  The bare anchor is a directory. *)

Inductive Node : Type :=
  | Dir
  | File (content : string).

Definition FS : Type := list string -> option Node.

Definition key (p : Path) : list string := anchor p :: parts p.

Definition fs_lookup (fs : FS) (k : list string) : option Node :=
  match k with
  | [_] => Some Dir
  | _ => fs k
  end.

Definition exists_at (fs : FS) (p : Path) : bool :=
  match fs_lookup fs (key p) with Some _ => true | None => false end.

Definition is_dir (fs : FS) (p : Path) : bool :=
  match fs_lookup fs (key p) with Some Dir => true | _ => false end.

(** [strip_prefix pre k]: the rest of [k] after [pre], when [k] starts with it. *)
Fixpoint strip_prefix (pre k : list string) : option (list string) :=
  match pre, k with
  | [], _ => Some k
  | x :: pre', y :: k' => if String.eqb x y then strip_prefix pre' k' else None
  | _ :: _, [] => None
  end.

(** A proper ancestor of [k], other than the bare anchor, that is a file. *)
Fixpoint blocked_from (fs : FS) (pre rest : list string) : bool :=
  match rest with
  | [] | [_] => false
  | x :: rest' =>
      match fs_lookup fs (pre ++ [x]) with
      | Some (File _) => true
      | _ => blocked_from fs (pre ++ [x]) rest'
      end
  end.

Definition blocked (fs : FS) (p : Path) : bool :=
  blocked_from fs [anchor p] (parts p).

(** [k'] is [k] or a proper ancestor of it. *)
Definition is_ancestor_or_self (k' k : list string) : bool :=
  match strip_prefix k' k with Some _ => true | None => false end.

(** [os.makedirs]: every missing directory down to [p] is created. *)
Definition makedirs (p : Path) (fs : FS) : FS :=
  fun k =>
    match fs k with
    | Some n => Some n
    | None => if is_ancestor_or_self k (key p) then Some Dir else None
    end.

(** [p.mkdir(parents=True, exist_ok=True)] *)
Definition mkdir_p (p : Path) (fs : FS) : Result FS :=
  match fs_lookup fs (key p) with
  | Some Dir => Ok fs
  | Some (File _) => Raise (FileExistsError (str_of p))
  | None =>
      if blocked fs p then Raise (NotADirectoryError (str_of p))
      else Ok (makedirs p fs)
  end.

(** [shutil.copytree(src, dst)] with its defaults ([dirs_exist_ok=False]):
    [src] is listed first, then [os.makedirs(dst)] creates the destination
    and refuses an existing one, then the tree below [src] is copied.  The
    model copies the tree as it was before the call; it is meant for a
    destination that does not lie inside [src]. *)
Definition copytree (src dst : Path) (fs : FS) : Result FS :=
  match fs_lookup fs (key src) with
  | None => Raise (FileNotFoundError (str_of src))
  | Some (File _) => Raise (NotADirectoryError (str_of src))
  | Some Dir =>
      if exists_at fs dst then Raise (FileExistsError (str_of dst))
      else if blocked fs dst then Raise (NotADirectoryError (str_of dst))
      else Ok (fun k =>
                 match strip_prefix (key dst) k with
                 | Some [] => Some Dir
                 | Some rel => fs (key src ++ rel)
                 | None => makedirs dst fs k
                 end)
  end.

(** ** The data model *)

(** [frametree.common.Clinical], the axes of a clinical dataset.  The
    wrapper only tells [session] from the rest. *)
Inductive Clinical : Type :=
  | constant | member | group | visit
  | session | subject | groupedvisit | matchedvisit.

Global Instance Clinical_eq_dec : EqDecision Clinical.
Proof. solve_decision. Defined.

(** [Clinical[name]]: the member of that name, or a [KeyError]. *)
Definition Clinical_getitem (name : string) : Result Clinical :=
  if String.eqb name "constant" then Ok constant
  else if String.eqb name "member" then Ok member
  else if String.eqb name "group" then Ok group
  else if String.eqb name "visit" then Ok visit
  else if String.eqb name "session" then Ok session
  else if String.eqb name "subject" then Ok subject
  else if String.eqb name "groupedvisit" then Ok groupedvisit
  else if String.eqb name "matchedvisit" then Ok matchedvisit
  else Raise (KeyError name).

(** A frequency given by name is looked up:
    [if isinstance(row_frequency, str): row_frequency = Clinical[row_frequency]] *)
Definition resolve_frequency (row_frequency : Clinical + string) : Result Clinical :=
  match row_frequency with
  | inl f => Ok f
  | inr s => Clinical_getitem s
  end.

(** A resolved file format class (a subclass of [FileSet]), by its name. *)
Definition Datatype : Type := string.

Module BidsInput.
Record t : Type := mk { name : string; path : string; datatype : Datatype }.
End BidsInput.

Module BidsOutput.
Record t : Type := mk { name : string; datatype : Datatype; path : option string }.
End BidsOutput.

(** [frametree.bids.store.JsonEdit]: the files to edit and the expression
    applied to their side-cars. *)
Module JsonEdit.
Record t : Type := mk { path : string; jq_expr : string }.

(** [JsonEdit.attr_converter]: an item that is a [JsonEdit] already is
    kept, a pair is turned into one. *)
Definition attr_converter (json_edits : list (t + string * string)) : list t :=
  map (fun x => match x with
                | inl je => je
                | inr (p, e) => mk p e
                end) json_edits.
End JsonEdit.

(** A record of the [frametree] logger. *)
Inductive LogRecord : Type :=
  | WARNING (msg : string).

(** [l[::2]] *)
Fixpoint slice_even {A} (l : list A) : list A :=
  match l with
  | x :: _ :: l' => x :: slice_even l'
  | [x] => [x]
  | [] => []
  end.

(** [l[1::2]] *)
Definition slice_odd {A} (l : list A) : list A := slice_even (tail l).

(** [list(zip(a, b))] *)
Definition zip {A B} (a : list A) (b : list B) : list (A * B) := combine a b.

(** ** Python types and [repr] *)

(** A class, by the name its [repr] shows. *)
Inductive PyType : Type :=
  | PyClass (qualname : string).

Module Py.
Definition bool : PyType := PyClass "bool".
Definition str : PyType := PyClass "str".
Definition tuple : PyType := PyClass "tuple".
Definition Path : PyType := PyClass "pathlib.Path".
Definition Directory : PyType := PyClass "fileformats.generic.directory.Directory".
End Py.

(** [a is b] on classes *)
Definition type_is (a b : PyType) : bool :=
  match a, b with PyClass x, PyClass y => String.eqb x y end.

Fixpoint contains (c : ascii) (s : string) : bool :=
  match s with
  | EmptyString => false
  | String d s' => ascii_eqb c d || contains c s'
  end.

Definition hex_digit (n : nat) : ascii :=
  nth n (list_ascii_of_string "0123456789abcdef") "0"%char.

(** One character of [repr(s)] inside the quote [q].  Bytes above ASCII
    stand for printable text and are kept. *)
Definition repr_char (q c : ascii) : string :=
  if ascii_eqb c q || ascii_eqb c backslash then String backslash (String c "")
  else if ascii_eqb c "009"%char then "\t"
  else if ascii_eqb c "010"%char then "\n"
  else if ascii_eqb c "013"%char then "\r"
  else if Nat.ltb (nat_of_ascii c) 32 || Nat.eqb (nat_of_ascii c) 127
  then "\x" +:+ String (hex_digit (nat_of_ascii c / 16))
                  (String (hex_digit (nat_of_ascii c mod 16)) "")
  else String c "".

Fixpoint repr_chars (q : ascii) (s : string) : string :=
  match s with
  | EmptyString => ""
  | String c s' => repr_char q c +:+ repr_chars q s'
  end.

(** [repr(s)] of a string: double quotes only when [s] holds a single quote
    and no double quote. *)
Definition repr_str (s : string) : string :=
  let q := if contains squote s && negb (contains dquote s) then dquote else squote in
  String q (repr_chars q s) +:+ String q "".

(** [repr(t)] of a class *)
Definition repr_type (t : PyType) : string :=
  match t with PyClass n => "<class '" +:+ n +:+ "'>" end.

(** [repr(param)] of an item [(name, type)] of the parameters; [str] of a
    tuple, and so its rendering in an f-string, is the same text. *)
Definition repr_item (param : string * PyType) : string :=
  "(" +:+ repr_str (fst param) +:+ ", " +:+ repr_type (snd param) +:+ ")".

(** [type(param)] of such an item *)
Definition type_of_item (param : string * PyType) : PyType := Py.tuple.

(** ** The fields of the shell task *)

(** The name of a field: a string for the fixed fields; the fields made for
    the parameters are named by the item itself. *)
Inductive FieldName : Type :=
  | FName (s : string)
  | FItem (param : string * PyType).

(** A field [(name, type, metadata)]; a key missing from the metadata is
    [None] (or [false] for [mandatory]). *)
Record FieldSpec : Type := mkField {
  f_name : FieldName;
  f_type : PyType;
  help_string : string;
  position : option Z;
  mandatory : bool;
  argstr : option string;
}.

Definition dataset_path_field : FieldSpec :=
  mkField (FName "dataset_path") Py.Directory
    "Path to BIDS dataset in the container" (Some 1%Z) true
    (Some "'{dataset_path}'").

Definition output_path_field : FieldSpec :=
  mkField (FName "output_path") Py.Path
    "Directory where outputs will be written in the container" (Some 2%Z) false
    (Some "'{output_path}'").

Definition analysis_level_field : FieldSpec :=
  mkField (FName "analysis_level") Py.str
    "The analysis level the app will be run at" (Some 3%Z) false (Some "").

Definition participant_label_field : FieldSpec :=
  mkField (FName "participant_label") Py.str
    "The IDs to include in the analysis" (Some 4%Z) false
    (Some "--participant-label ").

Definition flags_field : FieldSpec :=
  mkField (FName "flags") Py.str
    "Additional flags to pass to the app" (Some (-1)%Z) false (Some "").

Definition work_dir_field : FieldSpec :=
  mkField (FName "work_dir") Py.Path
    "Directory where the nipype temporary working directories will be stored"
    None false (Some "--work-dir '{work_dir}'").

Definition setup_completed_field : FieldSpec :=
  mkField (FName "setup_completed") Py.bool
    "Dummy field to ensure that the BIDS dataset construction completes first"
    None false None.

Definition BIDS_APP_INPUTS : list FieldSpec :=
  [dataset_path_field; output_path_field; analysis_level_field;
   participant_label_field; flags_field; work_dir_field; setup_completed_field].

(** An output field of a shell task. *)
Record OutputSpec : Type := mkOutput {
  o_name : string;
  o_type : PyType;
  o_help_string : string;
}.

Definition BIDS_APP_OUTPUTS : list OutputSpec :=
  [mkOutput "completed" Py.bool "a simple flag to indicate app has completed"].

(** The field appended for one item of [parameters.items()]. *)
Definition param_field (param : string * PyType) : FieldSpec :=
  let argstr := "--" +:+ repr_item param in
  let argstr := if negb (type_is (type_of_item param) Py.bool)
                then argstr +:+ " %s" else argstr in
  mkField (FItem param) (type_of_item param)
          ("Optional parameter " +:+ repr_item param) None false (Some argstr).

(** [input_fields] after the loop over the parameters. *)
Definition input_fields (parameters : list (string * PyType)) : list FieldSpec :=
  fold_left (fun fields param => fields ++ [param_field param])
            parameters BIDS_APP_INPUTS.

(** *** The order of the arguments on the command line

    The shell task (pydra) renders the fields that have an [argstr] and a
    value, and orders them by [position]: the positive positions ascending,
    then the fields without a position in the order of their declaration,
    then the negative positions ascending, which count from the end. *)










(** The execution environment of the main task. *)
Inductive Environment : Type :=
  | Native
  | Docker (image : string).

Definition CONTAINER_DERIV_PATH : string := "/frametree_bids_outputs".
Definition CONTAINER_DATASET_PATH : string := "/frametree_bids_dataset".
Definition DEFAULT_BIDS_ID : string := "DEFAULT".

(** [shlex.split(json_edits) if json_edits else []] *)
Definition json_edit_tokens (user_json_edits : string) : Result (list string) :=
  if String.eqb user_json_edits "" then Ok [] else shlex_split user_json_edits.

(** The store after a sequence of operations, which stops at the first one
    that raises. *)
Fixpoint run_ops {S} (ops : list (S -> Result S)) (s : S) : Result unit * S :=
  match ops with
  | [] => (Ok tt, s)
  | op :: ops' =>
      match op s with
      | Ok s' => run_ops ops' s'
      | Raise e => (Raise e, s)
      end
  end.

(** The inputs that carry a value, and those marked absent. *)
Definition provided (input_values : list (string * Value)) : list (string * Value) :=
  List.filter (fun iv => negb (is_NOTHING (snd iv))) input_values.

Definition absent (input_values : list (string * Value)) : list (string * Value) :=
  List.filter (fun iv => is_NOTHING (snd iv)) input_values.

(** ** The wrapper, over the interface of the dataset store *)

Section Wrapper.

(** The state of a dataset (columns, rows, stored items) and a handle on
    one of its rows. *)
Context {S Row : Type}.

(** [FrameSet.add_sink(name, datatype, path=path)] *)
Variable add_sink : string -> Datatype -> string -> S -> Result S.
(** [FrameSet.row(frequency, id)] *)
Variable get_row : Clinical -> string -> S -> Result Row.
(** [row[name] = value] *)
Variable row_setitem : Row -> string -> Value -> S -> Result S.
(** [row[name]]: reads the dataset and the files of its derivatives. *)
Variable row_getitem : Row -> string -> FS -> S -> Result Value.
(** Entering and leaving [store.connection]. *)
Variable connect : S -> Result S.
Variable disconnect : S -> S.

(** A [FrameSet]: its location ([dataset.id]), the side-car edits of its
    store ([frameset.store.json_edits]) and the rest of its state. *)
Record FrameSet : Type := mkFrameSet {
  id : string;
  json_edits : list JsonEdit.t;
  state : S;
}.

(** What a run can change: the file system, the one [FrameSet] object the
    three stages share by reference, the log and the supply of temporary
    directory names. *)
Record World : Type := mkWorld {
  w_fs : FS;
  w_frameset : FrameSet;
  w_log : list LogRecord;
  w_tmp : nat;
}.

(** Computations that change the world and may raise.  The world after a
    raise keeps the effects made before it. *)
Definition M (A : Type) : Type := World -> Result A * World.

Definition ret {A} (a : A) : M A := fun w => (Ok a, w).
Definition raise {A} (e : Exc) : M A := fun w => (Raise e, w).
Definition bind {A B} (c : M A) (k : A -> M B) : M B :=
  fun w => match c w with
           | (Ok a, w') => k a w'
           | (Raise e, w') => (Raise e, w')
           end.

Notation "x <- c ;; k" := (bind c (fun x => k))
  (at level 20, c at level 99, k at level 200, only parsing).
Notation "c ;; k" := (bind c (fun _ => k))
  (at level 100, k at level 200, right associativity, only parsing).

(** [for x in l: body(x)] *)
Fixpoint for_each {A} (l : list A) (body : A -> M unit) : M unit :=
  match l with
  | [] => ret tt
  | x :: l' => body x ;; for_each l' body
  end.

(** [for x in l: out.append(body(x))] *)
Fixpoint collect {A B} (l : list A) (body : A -> M B) : M (list B) :=
  match l with
  | [] => ret []
  | x :: l' => y <- body x ;; ys <- collect l' body ;; ret (y :: ys)
  end.

Definition lift {A} (r : Result A) : M A := fun w => (r, w).

Definition set_state (s : S) (w : World) : World :=
  mkWorld (w_fs w)
          (mkFrameSet (id (w_frameset w)) (json_edits (w_frameset w)) s)
          (w_log w) (w_tmp w).

Definition set_fs (fs : FS) (w : World) : World :=
  mkWorld fs (w_frameset w) (w_log w) (w_tmp w).

(** An operation of the store that changes the dataset. *)
Definition on_store (op : S -> Result S) : M unit :=
  fun w => match op (state (w_frameset w)) with
           | Ok s => (Ok tt, set_state s w)
           | Raise e => (Raise e, w)
           end.

(** [frameset.store.json_edits = edits] *)
Definition set_json_edits (edits : list JsonEdit.t) : M unit :=
  fun w => (Ok tt,
            mkWorld (w_fs w)
                    (mkFrameSet (id (w_frameset w)) edits (state (w_frameset w)))
                    (w_log w) (w_tmp w)).

Definition frameset_add_sink (name : string) (dt : Datatype) (path : string) : M unit :=
  on_store (add_sink name dt path).

Definition frameset_row (freq : Clinical) (row_id : string) : M Row :=
  fun w => (get_row freq row_id (state (w_frameset w)), w).

Definition setitem (row : Row) (name : string) (v : Value) : M unit :=
  on_store (row_setitem row name v).

Definition getitem (row : Row) (name : string) : M Value :=
  fun w => (row_getitem row name (w_fs w) (state (w_frameset w)), w).

(** [with frameset.store.connection: body]; the connection is left when
    the body raises, too. *)
Definition with_connection {A} (body : M A) : M A :=
  fun w => match on_store connect w with
           | (Ok _, w1) =>
               let '(r, w2) := body w1 in
               (r, set_state (disconnect (state (w_frameset w2))) w2)
           | (Raise e, w1) => (Raise e, w1)
           end.

(** [logger.warning("No input provided for '%s' input", inpt_name)] *)
Definition no_input_warning (inpt_name : string) : LogRecord :=
  WARNING ("No input provided for '" +:+ inpt_name +:+ "' input").

Definition logger_warning (r : LogRecord) : M unit :=
  fun w => (Ok tt, mkWorld (w_fs w) (w_frameset w) (w_log w ++ [r]) (w_tmp w)).

(** *** [ToBids] (stage-in) *)

(** The effective side-car edits: the fixed ones, then the pairs of the
    user's tokens. *)
Definition effective_json_edits (fixed_json_edits : list JsonEdit.t)
    (je_args : list string) : list JsonEdit.t :=
  JsonEdit.attr_converter
    (map inl fixed_json_edits ++ map inr (zip (slice_even je_args) (slice_odd je_args))).

(** The body of the loop over [input_values.items()]. *)
Definition write_input (row : Row) (item : string * Value) : M unit :=
  let '(inpt_name, inpt_value) := item in
  if is_NOTHING inpt_value then logger_warning (no_input_warning inpt_name)
  else setitem row inpt_name inpt_value.

(** [ToBids]; [frameset] is the shared object of the world, and returning
    it returns the same reference, so the result is the [completed] flag.
    [row_id] is the parameter [id] and [user_json_edits] the parameter
    [json_edits]. *)
Definition ToBids (row_frequency : Clinical) (inputs : list BidsInput.t)
    (row_id : string) (user_json_edits : string)
    (fixed_json_edits : list JsonEdit.t)
    (input_values : list (string * Value)) : M bool :=
  je_args <- lift (json_edit_tokens user_json_edits) ;;
  set_json_edits (effective_json_edits fixed_json_edits je_args) ;;
  for_each inputs (fun inpt =>
    frameset_add_sink (BidsInput.name inpt) (BidsInput.datatype inpt)
                      (BidsInput.path inpt)) ;;
  row <- frameset_row row_frequency row_id ;;
  with_connection (for_each input_values (write_input row)) ;;
  ret true.

(** *** [ExtractBids] (extract-out) *)

(** Where the output directory is copied to. *)
Definition derivatives_dest (dataset_id app_name row_id : string) : Path :=
  (Path_of dataset_id </> "derivatives" </> app_name </> ("sub-" +:+ row_id))%path.

Definition fs_copytree (src dst : Path) : M unit :=
  fun w => match copytree src dst (w_fs w) with
           | Ok fs => (Ok tt, set_fs fs w)
           | Raise e => (Raise e, w)
           end.

(** The path of the sink of an output: [output.path] when it is a
    non-empty string, the whole directory otherwise, then the app. *)
Definition sink_path (output : BidsOutput.t) (app_name : string) : string :=
  (match BidsOutput.path output with
   | Some p => if String.eqb p "" then "" else p
   | None => ""
   end) +:+ "@" +:+ app_name.

Definition ExtractBids (row_frequency : Clinical) (app_name : string)
    (output_dir : Path) (outputs : list BidsOutput.t) (row_id : string)
    (app_completed : bool) : M Value :=
  fun w =>
  (fs_copytree output_dir
     (derivatives_dest (id (w_frameset w)) app_name row_id) ;;
   row <- frameset_row row_frequency row_id ;;
   for_each outputs (fun output =>
     frameset_add_sink (BidsOutput.name output) (BidsOutput.datatype output)
                       (sink_path output app_name)) ;;
   output_paths <- with_connection
                     (collect outputs (fun output =>
                        getitem row (BidsOutput.name output))) ;;
   if Nat.ltb 1 (List.length outputs) then ret (Tuple output_paths)
   else match output_paths with
        | v :: _ => ret v
        | [] => raise (IndexError "list index out of range")
        end) w.

(** *** The two tasks as the specification describes them

    Stage-In on the store: register a sink for each input descriptor, then
    write each input that carries a value to the addressed row, inside the
    connection.  The inputs marked absent play no part. *)
Definition sink_ops (inputs : list BidsInput.t) : list (S -> Result S) :=
  map (fun inpt => add_sink (BidsInput.name inpt) (BidsInput.datatype inpt)
                            (BidsInput.path inpt)) inputs.

Definition write_ops (row : Row) (input_values : list (string * Value))
    : list (S -> Result S) :=
  map (fun iv => row_setitem row (fst iv) (snd iv)) (provided input_values).

Definition stage_in_store (row_frequency : Clinical) (inputs : list BidsInput.t)
    (row_id : string) (input_values : list (string * Value)) (s : S)
    : Result bool * S :=
  match run_ops (sink_ops inputs) s with
  | (Raise e, s1) => (Raise e, s1)
  | (Ok _, s1) =>
      match get_row row_frequency row_id s1 with
      | Raise e => (Raise e, s1)
      | Ok row =>
          match connect s1 with
          | Raise e => (Raise e, s1)
          | Ok s2 =>
              match run_ops (write_ops row input_values) s2 with
              | (Raise e, s3) => (Raise e, disconnect s3)
              | (Ok _, s3) => (Ok true, disconnect s3)
              end
          end
      end
  end.

(** Extract-Out on the store, once the output directory is copied: register
    a sink for each output descriptor, read each of them back, and return
    the one value or the tuple of them. *)
Definition output_sink_ops (app_name : string) (outputs : list BidsOutput.t)
    : list (S -> Result S) :=
  map (fun output => add_sink (BidsOutput.name output) (BidsOutput.datatype output)
                              (sink_path output app_name)) outputs.

Fixpoint read_all (row : Row) (outputs : list BidsOutput.t) (fs : FS) (s : S)
    : Result (list Value) :=
  match outputs with
  | [] => Ok []
  | output :: outputs' =>
      match row_getitem row (BidsOutput.name output) fs s with
      | Raise e => Raise e
      | Ok v =>
          match read_all row outputs' fs s with
          | Raise e => Raise e
          | Ok vs => Ok (v :: vs)
          end
      end
  end.

Definition one_or_tuple (values : list Value) : Result Value :=
  match values with
  | [] => Raise (IndexError "list index out of range")
  | [v] => Ok v
  | _ => Ok (Tuple values)
  end.

Definition extract_out_store (row_frequency : Clinical) (app_name : string)
    (outputs : list BidsOutput.t) (row_id : string) (fs : FS) (s : S)
    : Result Value * S :=
  match get_row row_frequency row_id s with
  | Raise e => (Raise e, s)
  | Ok row =>
      match run_ops (output_sink_ops app_name outputs) s with
      | (Raise e, s1) => (Raise e, s1)
      | (Ok _, s1) =>
          match connect s1 with
          | Raise e => (Raise e, s1)
          | Ok s2 =>
              match read_all row outputs fs s2 with
              | Raise e => (Raise e, disconnect s2)
              | Ok values => (one_or_tuple values, disconnect s2)
              end
          end
      end
  end.

(** *** [BidsApp], the workflow constructor *)

(** [ClassResolver(FileSet)]: the class a format identifier names. *)
Variable ClassResolver : string -> Result Datatype.
(** [Bids().create_dataset(id=, name=, leaves=, metadata={"authors": ..})] *)
Variable create_dataset :
  string -> string -> list (list string) -> list string -> FS -> Result (FrameSet * FS).
(** [frametree.core.__version__] *)
Variable frametree_version : string.

(** [d[k]] in a [Dict[str, str]] given by its items. *)
Fixpoint dict_get (d : list (string * string)) (k : string) : option string :=
  match d with
  | [] => None
  | (k', v) :: d' => if String.eqb k k' then Some v else dict_get d' k
  end.

Definition known_keys (keys : list string) (d : list (string * string)) : bool :=
  forallb (fun kv => existsb (String.eqb (fst kv)) keys) d.

(** [BidsInput] called with the items of [d]: all three attributes are required. *)
Definition BidsInput_of_dict (d : list (string * string)) : Result BidsInput.t :=
  if negb (known_keys ["name"; "path"; "datatype"] d)
  then Raise (TypeError "unexpected keyword argument")
  else match dict_get d "name", dict_get d "path", dict_get d "datatype" with
       | Some n, Some p, Some dt =>
           match ClassResolver dt with
           | Ok c => Ok (BidsInput.mk n p c)
           | Raise e => Raise e
           end
       | _, _, _ => Raise (TypeError "missing required keyword-only argument")
       end.

(** [BidsOutput] called with the items of [d]: the path may be left out. *)
Definition BidsOutput_of_dict (d : list (string * string)) : Result BidsOutput.t :=
  if negb (known_keys ["name"; "path"; "datatype"] d)
  then Raise (TypeError "unexpected keyword argument")
  else match dict_get d "name", dict_get d "datatype" with
       | Some n, Some dt =>
           match ClassResolver dt with
           | Ok c => Ok (BidsOutput.mk n c (dict_get d "path"))
           | Raise e => Raise e
           end
       | _, _ => Raise (TypeError "missing required keyword-only argument")
       end.

(** [ObjectListConverter(klass)(items)]: an object of the class is kept, a
    dictionary is passed to the class; the items stay in their order. *)
Definition convert_item {T} (of_dict : list (string * string) -> Result T)
    (item : T + list (string * string)) : Result T :=
  match item with
  | inl o => Ok o
  | inr d => of_dict d
  end.

Fixpoint ObjectListConverter {T} (of_dict : list (string * string) -> Result T)
    (items : list (T + list (string * string))) : Result (list T) :=
  match items with
  | [] => Ok []
  | item :: items' =>
      match convert_item of_dict item with
      | Raise e => Raise e
      | Ok o =>
          match ObjectListConverter of_dict items' with
          | Ok os => Ok (o :: os)
          | Raise e => Raise e
          end
      end
  end.

(** [tempfile.mkdtemp()]: a new directory, named from the supply. *)
Definition mkdtemp : M string :=
  fun w =>
    let p := "/tmp/tmp" +:+ pretty (w_tmp w) in
    (Ok p, mkWorld (makedirs (Path_of p) (w_fs w)) (w_frameset w) (w_log w)
                   (Datatypes.S (w_tmp w))).

Definition fs_mkdir (p : Path) : M unit :=
  fun w => match mkdir_p p (w_fs w) with
           | Ok fs => (Ok tt, set_fs fs w)
           | Raise e => (Raise e, w)
           end.

(** A directory argument: made when given, a temporary one otherwise. *)
Definition dir_or_temp (d : option Path) : M Path :=
  match d with
  | None => p <- mkdtemp ;; ret (Path_of p)
  | Some d => fs_mkdir d ;; ret d
  end.

(** The [dataset] argument: nothing, a location, or the [FrameSet] object
    of the world. *)
Inductive DatasetArg : Type :=
  | DatasetNone
  | DatasetAt (location : string)
  | DatasetObject.

Definition new_dataset (location name : string) : M unit :=
  fun w =>
    match create_dataset location (name +:+ "_dataset") [[DEFAULT_BIDS_ID]]
            ["Auto-generated by FrameTree " +:+ frametree_version;
             "Dummy second author"] (w_fs w) with
    | Ok (ds, fs) => (Ok tt, mkWorld fs ds (w_log w) (w_tmp w))
    | Raise e => (Raise e, w)
    end.

(** The dataset the stages work on: a new one in a temporary directory when
    none is given, a new one at the location given, or the object given. *)
Definition make_dataset (dataset : DatasetArg) (name : string) : M unit :=
  match dataset with
  | DatasetNone =>
      p <- mkdtemp ;;
      new_dataset (str_of (Path_of p </> "frametree_bids_dataset")%path) name
  | DatasetAt location => new_dataset location name
  | DatasetObject => ret tt
  end.

Definition dataset_id : M string := fun w => (Ok (id (w_frameset w)), w).

(** The output path for the app and the environment it runs in: the host
    directory without an image, the fixed path inside the container with
    one. *)
Definition app_output_path (container_image : option string) (app_output_dir : Path)
    : string :=
  match container_image with
  | None => str_of app_output_dir
  | Some _ => CONTAINER_DERIV_PATH
  end.

Definition environment (container_image : option string) : Environment :=
  match container_image with
  | None => Native
  | Some image => Docker image
  end.

Definition analysis_level (row_frequency : Clinical) : string :=
  if decide (row_frequency = session) then "participant" else "group".

(** A name that is read and bound nowhere, neither in the function nor in
    the module nor among the builtins: reading it raises. *)
Definition unbound {A} (name : string) : M A :=
  raise (NameError ("name '" +:+ name +:+ "' is not defined")).

(** The task definition made by [shell.define]. *)
Record ShellDef : Type := mkShellDef {
  sd_executable : string;
  sd_inputs : list FieldSpec;
  sd_outputs : list OutputSpec;
}.

(** The node [to_bids]: the arguments [ToBids] is added with ([dataset]
    is the shared object). *)
Record ToBidsNode : Type := mkToBidsNode {
  tb_row_frequency : Clinical;
  tb_inputs : list BidsInput.t;
  tb_id : string;
  tb_json_edits : option (list (string * string));
}.

(** The node [main_task]: the arguments [MainTask] is added with
    ([setup_completed] is the lazy [to_bids.completed]) and its bindings. *)
Record MainTaskNode : Type := mkMainTaskNode {
  mt_dataset_path : string;
  mt_output_path : string;
  mt_work_dir : string;
  mt_analysis_level : string;
  mt_executable : string;
  mt_environment : Environment;
  mt_flags : string;
  mt_kwargs : gmap string Value;
  mt_bindings : list (string * (string * string));
}.

(** The node [extract_bids] ([dataset] is [to_bids.frameset], the shared
    object; [app_completed] is the lazy [main_task.completed]). *)
Record ExtractBidsNode : Type := mkExtractBidsNode {
  eb_app_name : string;
  eb_output_dir : Path;
  eb_row_frequency : Clinical;
  eb_outputs : list BidsOutput.t;
  eb_id : string;
}.

Record Workflow : Type := mkWorkflow {
  to_bids : ToBidsNode;
  (** the outputs [SelectInputs] is defined with *)
  select_inputs_outputs : list string;
  MainTask : ShellDef;
  main_task : MainTaskNode;
  extract_bids : ExtractBidsNode;
  (** the names set on [workflow.outputs] *)
  workflow_outputs : list string;
}.

(** The keywords [MainTask] is called with besides [**kwargs]. *)
Definition main_task_keywords : list string :=
  ["dataset_path"; "output_path"; "work_dir"; "analysis_level"; "executable";
   "environment"; "flags"; "setup_completed"].

(** [MainTask(.., **kwargs)]: a keyword given twice is a [TypeError]. *)
Definition check_kwargs (kwargs : gmap string Value) : Result unit :=
  match filter (fun k => bool_decide (is_Some (kwargs !! k))) main_task_keywords with
  | [] => Ok tt
  | k :: _ => Raise (TypeError ("got multiple values for keyword argument '"
                                +:+ k +:+ "'"))
  end.

(** [BidsApp].  The names [kwargs] and [output_fields] are read by the
    function and bound nowhere: they are no parameters, the one assignment
    to [kwargs] is in a comment, and the module neither defines nor imports
    them.  For a [session] row the first of them to be read is [kwargs], in
    the assignment of the participant label; for any other frequency it is
    [output_fields], among the arguments of [shell.define]. *)
Definition BidsApp (name row_id : string)
    (inputs : list (BidsInput.t + list (string * string)))
    (outputs : list (BidsOutput.t + list (string * string)))
    (executable : string) (container_image : option string)
    (parameters : option (list (string * PyType)))
    (row_frequency : Clinical + string) (container_type : string)
    (dataset : DatasetArg) (app_output_dir app_work_dir : option Path)
    (fixed_json_edits : option (list (string * string))) (flags : string)
    : M Workflow :=
  let parameters := match parameters with None => [] | Some ps => ps end in
  app_output_dir <- dir_or_temp app_output_dir ;;
  app_work_dir <- dir_or_temp app_work_dir ;;
  row_frequency <- lift (resolve_frequency row_frequency) ;;
  make_dataset dataset name ;;
  inputs <- lift (ObjectListConverter BidsInput_of_dict inputs) ;;
  outputs <- lift (ObjectListConverter BidsOutput_of_dict outputs) ;;
  let input_names := map BidsInput.name inputs in
  let output_names := map BidsOutput.name outputs in
  let to_bids := mkToBidsNode row_frequency inputs row_id fixed_json_edits in
  let input_fields := input_fields parameters in
  let app_output_path := app_output_path container_image app_output_dir in
  let environment := environment container_image in
  let analysis_level := analysis_level row_frequency in
  labelled <- (if decide (row_frequency = session)
               then kwargs <- unbound "kwargs" ;;
                    ret (Some (<["participant_label" := Str row_id]> kwargs))
               else ret None) ;;
  output_fields <- unbound "output_fields" ;;
  let MainTask := mkShellDef executable input_fields output_fields in
  ds_id <- dataset_id ;;
  kwargs <- match labelled with
            | Some kwargs => ret kwargs
            | None => unbound "kwargs"
            end ;;
  lift (check_kwargs kwargs) ;;
  let bindings :=
    match container_image with
    | Some _ => [(str_of app_output_dir, (CONTAINER_DERIV_PATH, "rw"))]
    | None => []
    end in
  let main_task :=
    mkMainTaskNode ds_id app_output_path (str_of app_work_dir) analysis_level
                   executable environment flags kwargs bindings in
  let extract_bids :=
    mkExtractBidsNode name app_output_dir row_frequency outputs row_id in
  ret (mkWorkflow to_bids input_names MainTask main_task extract_bids output_names).

End Wrapper.

(** ** Notions used to state the properties *)

(** Tokens taken two by two as key and value; a last token without a
    partner is left out. *)
Fixpoint pairs {A} (l : list A) : list (A * A) :=
  match l with
  | k :: v :: l' => (k, v) :: pairs l'
  | _ => []
  end.

(** A word of a space-delimited string: not empty, and free of white space,
    quotes and escapes. *)
Definition plain_char (c : ascii) : bool :=
  negb (is_whitespace c) && negb (is_quote c) && negb (is_escape c).

Fixpoint all_plain (s : string) : bool :=
  match s with
  | EmptyString => true
  | String c s' => plain_char c && all_plain s'
  end.

Definition plain_word (w : string) : bool :=
  negb (String.eqb w "") && all_plain w.



(** A returned value that comes with a completion signal, as [ToBids]
    returns its frameset: a pair whose second component is the flag. *)
Definition with_completion_signal (v : Value) : Prop :=
  exists x b, v = Tuple [x; Bool b].

(** ** A dataset store in memory

    An instance of the interface, used to run the wrapper on concrete
    inputs: columns (sinks) by name, the rows of the dataset, and the items
    written so far.  A sink whose path is [<sub-path>@<app>] reads the
    file of the derivatives of that app; registering a name twice is
    refused. *)

Module Mem.

Record Column : Type := mkColumn { c_datatype : Datatype; c_path : string }.

Definition Row : Type := (Clinical * string)%type.

Record Store : Type := mkStore {
  root : string;
  columns : list (string * Column);
  rows : list Row;
  items : list (Row * string * Value);
  connections : nat;
}.

Definition row_eqb (a b : Row) : bool :=
  bool_decide (fst a = fst b) && String.eqb (snd a) (snd b).

Fixpoint find_column (cols : list (string * Column)) (name : string) : option Column :=
  match cols with
  | [] => None
  | (n, c) :: cols' => if String.eqb n name then Some c else find_column cols' name
  end.

Fixpoint find_item (its : list (Row * string * Value)) (r : Row) (name : string)
    : option Value :=
  match its with
  | [] => None
  | (r', n, v) :: its' =>
      if row_eqb r' r && String.eqb n name then Some v else find_item its' r name
  end.

Definition add_sink (name : string) (dt : Datatype) (path : string) (s : Store)
    : Result Store :=
  match find_column (columns s) name with
  | Some _ => Raise (StoreError (name +:+ " already exists in dataset columns"))
  | None => Ok (mkStore (root s) (columns s ++ [(name, mkColumn dt path)])
                        (rows s) (items s) (connections s))
  end.

Definition get_row (freq : Clinical) (row_id : string) (s : Store) : Result Row :=
  if existsb (row_eqb (freq, row_id)) (rows s) then Ok (freq, row_id)
  else Raise (StoreError ("no row " +:+ row_id))%string.

Definition row_setitem (r : Row) (name : string) (v : Value) (s : Store)
    : Result Store :=
  match find_column (columns s) name with
  | None => Raise (KeyError name)
  | Some _ => Ok (mkStore (root s) (columns s) (rows s) ((r, name, v) :: items s)
                          (connections s))
  end.

Definition row_getitem (r : Row) (name : string) (fs : FS) (s : Store)
    : Result Value :=
  match find_column (columns s) name with
  | None => Raise (KeyError name)
  | Some c =>
      match split_on "@" "" (c_path c) with
      | [sub; app] =>
          let target := (derivatives_dest (root s) app (snd r) </> sub)%path in
          if exists_at fs target then Ok (Str (str_of target))
          else Raise (FileNotFoundError (str_of target))
      | _ =>
          match find_item (items s) r name with
          | Some v => Ok v
          | None => Raise (KeyError name)
          end
      end
  end.

Definition connect (s : Store) : Result Store :=
  Ok (mkStore (root s) (columns s) (rows s) (items s) (Datatypes.S (connections s))).

Definition disconnect (s : Store) : Store :=
  mkStore (root s) (columns s) (rows s) (items s) (Nat.pred (connections s)).

Definition ClassResolver (name : string) : Result Datatype :=
  if String.eqb name "" then Raise (ValueError "cannot resolve class") else Ok name.

Definition create_dataset (location name : string) (leaves : list (list string))
    (authors : list string) (fs : FS) : Result (@FrameSet Store * FS) :=
  Ok (mkFrameSet location []
        (mkStore location [] (map (fun l => (session, join_with "_" l)) leaves) [] 0),
      makedirs (Path_of location) fs).

Definition ToBids := @ToBids Store Row add_sink get_row row_setitem connect disconnect.
Definition ExtractBids :=
  @ExtractBids Store Row add_sink get_row row_getitem connect disconnect.
Definition BidsApp := @BidsApp Store ClassResolver create_dataset "1.0".

(** A file system given by its entries. *)
Fixpoint fs_of (entries : list (list string * Node)) : FS :=
  fun k =>
    match entries with
    | [] => None
    | (k', n) :: entries' => if bool_decide (k = k') then Some n else fs_of entries' k
    end.

(** A dataset at [/ds] with the session [01], and the output directory
    [/out] the app has filled. *)
Definition store0 : Store := mkStore "/ds" [] [(session, "01")] [] 0.

Definition fs0 : FS :=
  fs_of [ (["/"; "ds"], Dir);
          (["/"; "out"], Dir);
          (["/"; "out"; "freesurfer"], Dir);
          (["/"; "out"; "freesurfer"; "recon-all"], File "surfaces");
          (["/"; "out"; "report.html"], File "report") ].

Definition w0 : @World Store := mkWorld fs0 (mkFrameSet "/ds" [] store0) [] 0.

Definition T1w : BidsInput.t := BidsInput.mk "T1w" "anat/T1w" "NiftiGzX".
Definition FLAIR : BidsInput.t := BidsInput.mk "FLAIR" "anat/FLAIR" "NiftiGzX".
Definition recon : BidsOutput.t :=
  BidsOutput.mk "recon" "Directory" (Some "freesurfer/recon-all").
Definition report : BidsOutput.t := BidsOutput.mk "report" "Html" (Some "report.html").

(** The same world after an earlier run has filled the derivatives of the
    app for the row. *)
Definition w_again : @World Store :=
  mkWorld (fs_of [ (["/"; "ds"], Dir);
                   (["/"; "ds"; "derivatives"], Dir);
                   (["/"; "ds"; "derivatives"; "myapp"], Dir);
                   (["/"; "ds"; "derivatives"; "myapp"; "sub-01"], Dir);
                   (["/"; "out"], Dir);
                   (["/"; "out"; "report.html"], File "report") ])
          (mkFrameSet "/ds" [] store0) [] 0.

(** The file system of [w0] after the copy of [/out]. *)
Definition fs_copied : FS :=
  match copytree (Path_of "/out") (derivatives_dest "/ds" "myapp" "01") fs0 with
  | Ok fs => fs
  | Raise _ => fs0
  end.

(** Calls of [BidsApp] for the app [myapp] and the row [01] in [w0], with
    the output directory [/out] and the flags [--fast]. *)
Definition run_with (ins : list BidsInput.t) (outs : list BidsOutput.t)
    (image : option string) (parameters : option (list (string * PyType)))
    (row_frequency : Clinical + string) : Result Workflow * @World Store :=
  BidsApp "myapp" "01" (map inl ins) (map inl outs) "" image parameters row_frequency
          "docker" DatasetObject (Some (Path_of "/out")) None None "--fast" w0.

Definition the_input : list (string * Value) := [("T1w", Str "/tmp/in.nii.gz")].


End Mem.

(** ** [SelectInputs]

    The task [BidsApp] defines over its [input_names]: the values of
    [inputs_dict] at these names, as a tuple, in their order; a name that is
    not a key raises its [KeyError]. *)

Fixpoint select_values (input_names : list string) (inputs_dict : gmap string Value)
    : Result (list Value) :=
  match input_names with
  | [] => Ok []
  | i :: input_names' =>
      match inputs_dict !! i with
      | None => Raise (KeyError i)
      | Some v =>
          match select_values input_names' inputs_dict with
          | Ok vs => Ok (v :: vs)
          | Raise e => Raise e
          end
      end
  end.

Definition SelectInputs (input_names : list string) (inputs_dict : gmap string Value)
    : Result Value :=
  match select_values input_names inputs_dict with
  | Ok vs => Ok (Tuple vs)
  | Raise e => Raise e
  end.

(** Key/value pairs written out as the words of a side-car edit string. *)
Fixpoint flatten_pairs (kvs : list (string * string)) : list string :=
  match kvs with
  | [] => []
  | (k, v) :: kvs' => k :: v :: flatten_pairs kvs'
  end.

(** ** A key-value store

    A second instance of the interface: the items written, latest first;
    every row exists, every name can be written, a read returns the latest
    item written for the row and the name. *)

Module KV.

Definition Row : Type := (Clinical * string)%type.
Definition Store : Type := list (Row * string * Value).

Definition add_sink (name : string) (dt : Datatype) (path : string) (s : Store)
    : Result Store := Ok s.

Definition get_row (freq : Clinical) (row_id : string) (s : Store) : Result Row :=
  Ok (freq, row_id).

Definition row_setitem (r : Row) (name : string) (v : Value) (s : Store)
    : Result Store := Ok ((r, name, v) :: s).

Definition row_getitem (r : Row) (name : string) (fs : FS) (s : Store) : Result Value :=
  match Mem.find_item s r name with
  | Some v => Ok v
  | None => Raise (KeyError name)
  end.

Definition connect (s : Store) : Result Store := Ok s.
Definition disconnect (s : Store) : Store := s.

Definition ToBids := @ToBids Store Row add_sink get_row row_setitem connect disconnect.

Definition w0 : @World Store := mkWorld Mem.fs0 (mkFrameSet "/ds" [] []) [] 0.

End KV.

(** * Properties *)

(** ** The library functions on examples *)

Example shlex_plain : shlex_split "a 2  b 3" = Ok ["a"; "2"; "b"; "3"].
Proof. reflexivity. Qed.

Example shlex_quoted :
  shlex_split "k 'two words' x\ y" = Ok ["k"; "two words"; "x y"].
Proof. reflexivity. Qed.

Example shlex_open_quote : shlex_split "a 'b" = Raise (ValueError "No closing quotation").
Proof. reflexivity. Qed.

Example path_parse : Path_of "/data//bids/./ds/" = mkPath "/" ["data"; "bids"; "ds"].
Proof. reflexivity. Qed.

Example path_join_rel :
  str_of (Path_of "/data/ds" </> "derivatives" </> "myapp" </> ("sub-" +:+ "01"))%path
  = "/data/ds/derivatives/myapp/sub-01".
Proof. reflexivity. Qed.

Example path_join_abs : (Path_of "/data/ds" </> "/elsewhere")%path = Path_of "/elsewhere".
Proof. reflexivity. Qed.

(** ** The order of the arguments *)

Lemma input_fields_app (parameters : list (string * PyType)) :
  input_fields parameters = BIDS_APP_INPUTS ++ map param_field parameters.
Proof.
  unfold input_fields. generalize BIDS_APP_INPUTS as base.
  induction parameters as [|p ps IH]; intros base; simpl.
  - by rewrite app_nil_r.
  - rewrite IH, <- app_assoc. reflexivity.
Qed.








(** ** The side-car edits *)

Lemma slice_odd_cons2 {A} (k v : A) (l : list A) :
  slice_odd (k :: v :: l) = v :: slice_odd l.
Proof. destruct l; reflexivity. Qed.

Lemma pairs_ind {A} (P : list A -> Prop) :
  P [] -> (forall x, P [x]) -> (forall x y l, P l -> P (x :: y :: l)) ->
  forall l, P l.
Proof.
  intros Hnil Hone Hstep l.
  assert (P l /\ forall x, P (x :: l)) as [H _]; [|exact H].
  induction l as [|y l [IH1 IH2]]; split; auto.
Qed.

(** Zipping the even and the odd slice pairs the tokens two by two. *)
Lemma zip_slices {A} (l : list A) : zip (slice_even l) (slice_odd l) = pairs l.
Proof.
  induction l as [|x|x y l IH] using pairs_ind; [reflexivity..|].
  rewrite slice_odd_cons2. cbn. f_equal. exact IH.
Qed.

Lemma pairs_length {A} (l : list A) : List.length (pairs l) = Nat.div2 (List.length l).
Proof.
  induction l as [|x|x y l IH] using pairs_ind; [reflexivity..|].
  cbn. f_equal. exact IH.
Qed.

Lemma effective_json_edits_pairs (fixed_json_edits : list JsonEdit.t) (toks : list string) :
  effective_json_edits fixed_json_edits toks
  = fixed_json_edits ++ map (fun kv => JsonEdit.mk (fst kv) (snd kv)) (pairs toks).
Proof.
  unfold effective_json_edits, JsonEdit.attr_converter.
  rewrite zip_slices, map_app, !map_map. f_equal.
  - induction fixed_json_edits as [|je l IH]; cbn; [reflexivity | by rewrite IH].
  - induction (pairs toks) as [|[k v] l IH]; cbn; [reflexivity | by rewrite IH].
Qed.

Lemma ObjectListConverter_objects {T} (of_dict : list (string * string) -> Result T)
    (objects : list T) :
  ObjectListConverter of_dict (map inl objects) = Ok objects.
Proof.
  induction objects as [|o l IH]; cbn; [reflexivity | by rewrite IH].
Qed.

(** The conversion goes item by item and keeps every item. *)
Lemma ObjectListConverter_Forall2 {T} (of_dict : list (string * string) -> Result T)
    (items : list (T + list (string * string))) (objects : list T) :
  ObjectListConverter of_dict items = Ok objects <->
  Forall2 (fun item o => convert_item of_dict item = Ok o) items objects.
Proof.
  revert objects. induction items as [|item items IH]; intros objects; cbn.
  - split; [intros [= <-]; constructor | intros Hf; by inversion Hf].
  - split.
    + destruct (convert_item of_dict item) as [o|] eqn:Ho; [|discriminate].
      destruct (ObjectListConverter of_dict items) as [os|]; [|discriminate].
      intros [= <-]. constructor; [exact Ho | by apply IH].
    + intros Hf. inversion Hf as [|? o ? os Ho Hos]; subst.
      rewrite Ho. apply IH in Hos. by rewrite Hos.
Qed.

Lemma provided_idem (input_values : list (string * Value)) :
  provided (provided input_values) = provided input_values.
Proof.
  unfold provided. induction input_values as [|iv l IH]; cbn; [reflexivity|].
  destruct (is_NOTHING (snd iv)) eqn:E; cbn; [exact IH|].
  rewrite E. cbn. by rewrite IH.
Qed.

Lemma strip_prefix_app (pre rel : list string) :
  strip_prefix pre (pre ++ rel) = Some rel.
Proof.
  induction pre as [|x l IH]; cbn; [reflexivity|].
  rewrite String.eqb_refl. exact IH.
Qed.

(** ** Paths *)

Lemma append_snoc_char (cur : string) (c : ascii) (s : string) :
  snoc_char cur c +:+ s = cur +:+ String c s.
Proof.
  unfold snoc_char. induction cur as [|d cur IH]; [reflexivity|].
  change ((String d cur +:+ String c "") +:+ s)
    with (String d ((cur +:+ String c "") +:+ s)).
  change (String d cur +:+ String c s) with (String d (cur +:+ String c s)).
  by f_equal.
Qed.

Lemma append_empty_r (s : string) : s +:+ "" = s.
Proof.
  induction s as [|d s IH]; [reflexivity|].
  change (String d s +:+ "") with (String d (s +:+ "")). by f_equal.
Qed.

Lemma split_on_no_sep (sep : ascii) (cur s : string) :
  contains sep s = false -> split_on sep cur s = [cur +:+ s].
Proof.
  revert cur. induction s as [|c s IH]; intros cur; cbn [split_on contains].
  - intros _. by rewrite append_empty_r.
  - intros [Hc Hs]%orb_false_iff. unfold ascii_eqb in *.
    rewrite Ascii.eqb_sym, Hc, (IH _ Hs). f_equal. apply append_snoc_char.
Qed.

(** A single component parses to itself. *)
Lemma Path_of_component (s : string) :
  contains "/" s = false -> is_component s = true -> Path_of s = mkPath "" [s].
Proof.
  intros Hs Hc. unfold Path_of. rewrite (split_on_no_sep _ _ _ Hs). cbn [List.filter].
  change ("" +:+ s) with s. rewrite Hc. f_equal.
  destruct s as [|c s]; [discriminate|].
  cbn [contains] in Hs. apply orb_false_iff in Hs as [Hc' _].
  unfold ascii_eqb in Hc'. apply Ascii.eqb_neq in Hc'.
  unfold anchor_of. destruct c as [[] [] [] [] [] [] [] []]; try reflexivity.
  by destruct Hc'.
Qed.

(** The destination of the copy, for an app name and a row id that are
    plain names. *)
Lemma derivatives_dest_plain (dataset_id app_name row_id : string) :
  contains "/" app_name = false -> is_component app_name = true ->
  contains "/" row_id = false ->
  derivatives_dest dataset_id app_name row_id
  = mkPath (anchor (Path_of dataset_id))
           (parts (Path_of dataset_id) ++ ["derivatives"; app_name; "sub-" +:+ row_id]).
Proof.
  intros Happ Hcomp Hrow. unfold derivatives_dest, truediv.
  rewrite (Path_of_component app_name Happ Hcomp).
  rewrite (Path_of_component ("sub-" +:+ row_id)) by (cbn; auto).
  change (Path_of "derivatives") with (mkPath "" ["derivatives"]).
  unfold joinpath. cbn. by rewrite <- !app_assoc.
Qed.

(** ** Splitting a space-delimited string *)

Lemma lex_word_chars (w : string) esc tok acc rest :
  all_plain w = true ->
  lex LexWord esc tok false acc (w +:+ rest) = lex LexWord esc (tok +:+ w) false acc rest.
Proof.
  revert tok. induction w as [|c w IH]; intros tok Hw.
  - by rewrite append_empty_r.
  - cbn [all_plain] in Hw. apply andb_true_iff in Hw as [Hc Hw].
    unfold plain_char in Hc.
    apply andb_true_iff in Hc as [[Hws Hq]%andb_true_iff He].
    apply negb_true_iff in Hws, Hq, He.
    change (String c w +:+ rest) with (String c (w +:+ rest)).
    cbn [lex]. rewrite Hws, Hq, He, (IH _ Hw), append_snoc_char. reflexivity.
Qed.

Lemma lex_start_word (w : string) esc acc rest :
  plain_word w = true ->
  lex LexSpace esc "" false acc (w +:+ rest) = lex LexWord esc w false acc rest.
Proof.
  unfold plain_word. intros [Hne Hw]%andb_true_iff.
  destruct w as [|c w]; [discriminate|].
  cbn [all_plain] in Hw. apply andb_true_iff in Hw as [Hc Hw].
  unfold plain_char in Hc.
  apply andb_true_iff in Hc as [[Hws Hq]%andb_true_iff He].
  apply negb_true_iff in Hws, Hq, He.
  change (String c w +:+ rest) with (String c (w +:+ rest)).
  cbn [lex]. rewrite Hws, Hq, He, (lex_word_chars w _ _ _ _ Hw). reflexivity.
Qed.

Lemma lex_words (ws : list string) esc acc :
  Forall (fun w => plain_word w = true) ws ->
  lex LexSpace esc "" false acc (join_with " " ws) = Ok (rev acc ++ ws).
Proof.
  revert esc acc. induction ws as [|w ws IH]; intros esc acc Hws.
  - cbn. by rewrite app_nil_r.
  - inversion Hws as [|? ? Hw Hws']; subst.
    assert (Hne : String.eqb w "" = false).
    { unfold plain_word in Hw. apply andb_true_iff in Hw as [Hne _].
      by apply negb_true_iff in Hne. }
    destruct ws as [|w2 ws].
    + cbn [join_with]. rewrite <- (append_empty_r w) at 1.
      rewrite (lex_start_word w _ _ _ Hw). cbn [lex]. rewrite Hne. reflexivity.
    + change (join_with " " (w :: w2 :: ws))
        with (w +:+ String " " (join_with " " (w2 :: ws))).
      rewrite (lex_start_word w _ _ _ Hw). cbn [lex is_whitespace ascii_eqb].
      change (Ascii.eqb " " " ") with true. cbn [orb]. rewrite Hne. cbn [negb orb].
      rewrite (IH _ _ Hws'). cbn [rev]. by rewrite <- app_assoc.
Qed.

(** Words joined by single spaces are split into these words. *)
Lemma shlex_split_words (ws : list string) :
  Forall (fun w => plain_word w = true) ws ->
  shlex_split (join_with " " ws) = Ok ws.
Proof. intros Hws. unfold shlex_split. by rewrite (lex_words ws _ _ Hws). Qed.

(** ** The calls of [BidsApp] *)

Section WorkflowProperties.

Context {S Row : Type}.
Variable add_sink : string -> Datatype -> string -> S -> Result S.
Variable get_row : Clinical -> string -> S -> Result Row.
Variable row_setitem : Row -> string -> Value -> S -> Result S.
Variable row_getitem : Row -> string -> FS -> S -> Result Value.
Variable connect : S -> Result S.
Variable disconnect : S -> S.
Variable ClassResolver : string -> Result Datatype.
Variable create_dataset :
  string -> string -> list (list string) -> list string -> FS
  -> Result (@FrameSet S * FS).
Variable frametree_version : string.

Abbreviation BidsApp' := (BidsApp ClassResolver create_dataset frametree_version).
Abbreviation make_dataset' := (make_dataset create_dataset frametree_version).

(** [BidsApp] step by step: the two directories, the frequency, the
    dataset, the two conversions, each of which may raise; then the read of
    a name that is not bound. *)
Lemma BidsApp_run name row_id inputs outputs executable container_image
    parameters row_frequency container_type dataset app_output_dir app_work_dir
    fixed_json_edits flags (w : @World S) :
  BidsApp' name row_id inputs outputs executable container_image parameters
    row_frequency container_type dataset app_output_dir app_work_dir
    fixed_json_edits flags w
  = match dir_or_temp app_output_dir w with
    | (Raise e, w1) => (Raise e, w1)
    | (Ok _, w1) =>
        match dir_or_temp app_work_dir w1 with
        | (Raise e, w2) => (Raise e, w2)
        | (Ok _, w2) =>
            match resolve_frequency row_frequency with
            | Raise e => (Raise e, w2)
            | Ok f =>
                match make_dataset' dataset name w2 with
                | (Raise e, w3) => (Raise e, w3)
                | (Ok _, w3) =>
                    match ObjectListConverter (BidsInput_of_dict ClassResolver) inputs with
                    | Raise e => (Raise e, w3)
                    | Ok _ =>
                        match ObjectListConverter (BidsOutput_of_dict ClassResolver)
                                outputs with
                        | Raise e => (Raise e, w3)
                        | Ok _ =>
                            (Raise (NameError
                                      (if decide (f = session)
                                       then "name 'kwargs' is not defined"
                                       else "name 'output_fields' is not defined")),
                             w3)
                        end
                    end
                end
            end
        end
    end.
Proof.
  unfold BidsApp, bind, lift.
  destruct (dir_or_temp app_output_dir w) as [[out_dir|?] w1]; [|reflexivity].
  destruct (dir_or_temp app_work_dir w1) as [[work_dir|?] w2]; [|reflexivity].
  destruct (resolve_frequency row_frequency) as [f|?]; [|reflexivity].
  destruct (make_dataset' dataset name w2) as [[[]|?] w3]; [|reflexivity].
  destruct (ObjectListConverter _ inputs) as [ins|?]; [|reflexivity].
  destruct (ObjectListConverter _ outputs) as [outs|?]; [|reflexivity].
  destruct (decide (f = session)); reflexivity.
Qed.

(** No call of [BidsApp] returns. *)
Lemma BidsApp_raises name row_id inputs outputs executable container_image
    parameters row_frequency container_type dataset app_output_dir app_work_dir
    fixed_json_edits flags (w : @World S) :
  exists e,
    fst (BidsApp' name row_id inputs outputs executable container_image parameters
           row_frequency container_type dataset app_output_dir app_work_dir
           fixed_json_edits flags w) = Raise e.
Proof.
  rewrite BidsApp_run.
  destruct (dir_or_temp app_output_dir w) as [[out_dir|?] w1]; [|by eauto].
  destruct (dir_or_temp app_work_dir w1) as [[work_dir|?] w2]; [|by eauto].
  destruct (resolve_frequency row_frequency) as [f|?]; [|by eauto].
  destruct (make_dataset' dataset name w2) as [[[]|?] w3]; [|by eauto].
  destruct (ObjectListConverter _ inputs) as [ins|?]; [|by eauto].
  destruct (ObjectListConverter _ outputs) as [outs|?]; by eauto.
Qed.

(** When the steps before it succeed, the error is the [NameError] of the
    first unbound name, raised in the world these steps leave. *)
Lemma BidsApp_NameError name row_id inputs outputs executable container_image
    parameters row_frequency container_type dataset app_output_dir app_work_dir
    fixed_json_edits flags (w w1 w2 w3 : @World S) out_dir work_dir f ins outs :
  dir_or_temp app_output_dir w = (Ok out_dir, w1) ->
  dir_or_temp app_work_dir w1 = (Ok work_dir, w2) ->
  resolve_frequency row_frequency = Ok f ->
  make_dataset' dataset name w2 = (Ok tt, w3) ->
  ObjectListConverter (BidsInput_of_dict ClassResolver) inputs = Ok ins ->
  ObjectListConverter (BidsOutput_of_dict ClassResolver) outputs = Ok outs ->
  BidsApp' name row_id inputs outputs executable container_image parameters
    row_frequency container_type dataset app_output_dir app_work_dir
    fixed_json_edits flags w
  = (Raise (NameError (if decide (f = session)
                       then "name 'kwargs' is not defined"
                       else "name 'output_fields' is not defined")), w3).
Proof.
  intros H1 H2 H3 H4 H5 H6. rewrite BidsApp_run, H1, H2, H3, H4, H5, H6. reflexivity.
Qed.

(** ** The two tasks and their store *)

Abbreviation ToBids' := (ToBids add_sink get_row row_setitem connect disconnect).
Abbreviation ExtractBids' :=
  (ExtractBids add_sink get_row row_getitem connect disconnect).
Abbreviation stage_in_store' :=
  (stage_in_store add_sink get_row row_setitem connect disconnect).
Abbreviation extract_out_store' :=
  (extract_out_store add_sink get_row row_getitem connect disconnect).

(** A loop of store operations is [run_ops] on the state of the dataset. *)
Lemma for_each_on_store {A} (op : A -> S -> Result S) (l : list A)
    fs i je (s0 : S) log tmp :
  for_each l (fun x => on_store (op x)) (mkWorld fs (mkFrameSet i je s0) log tmp)
  = (fst (run_ops (map op l) s0),
     mkWorld fs (mkFrameSet i je (snd (run_ops (map op l) s0))) log tmp).
Proof.
  revert s0. induction l as [|a l IH]; intros s0; cbn; [reflexivity|].
  unfold bind, on_store at 1. cbn.
  destruct (op a s0) as [s1|e]; cbn; [apply IH | reflexivity].
Qed.

(** The loop over the input values: the values that are provided are
    written, in order; each absent one adds its warning to the log. *)
Lemma write_loop (row : Row) (ivs : list (string * Value)) fs i je (s0 : S) log tmp :
  exists log',
    for_each ivs (write_input row_setitem row) (mkWorld fs (mkFrameSet i je s0) log tmp)
    = (fst (run_ops (write_ops row_setitem row ivs) s0),
       mkWorld fs (mkFrameSet i je (snd (run_ops (write_ops row_setitem row ivs) s0)))
               log' tmp)
    /\ (fst (run_ops (write_ops row_setitem row ivs) s0) = Ok tt ->
        log' = log ++ map (fun iv => no_input_warning (fst iv)) (absent ivs)).
Proof.
  revert s0 log. induction ivs as [|[n v] ivs IH]; intros s0 log.
  - exists log. cbn. split; [reflexivity|]. intros _. by rewrite app_nil_r.
  - unfold write_ops, provided, absent in *. cbn [for_each List.filter snd fst].
    unfold bind, write_input at 1.
    destruct (is_NOTHING v) eqn:Hv; cbn [negb].
    + unfold logger_warning. cbn.
      destruct (IH s0 (log ++ [no_input_warning n])) as (log' & Heq & Hlog).
      exists log'. split; [exact Heq|].
      intros Hok. rewrite (Hlog Hok), <- app_assoc. reflexivity.
    + unfold setitem, on_store. cbn.
      destruct (row_setitem row n v s0) as [s1|e]; cbn.
      * apply IH.
      * exists log. split; [reflexivity | discriminate].
Qed.

(** [ToBids] on a world: its outcome and the store it leaves are those of
    Stage-In on the store; the edits are installed; the file system and the
    supply of names are untouched. *)
Lemma ToBids_run row_frequency inputs row_id user_json_edits fixed_json_edits
    input_values fs i je (s0 : S) log tmp toks :
  json_edit_tokens user_json_edits = Ok toks ->
  exists log',
    ToBids' row_frequency inputs row_id user_json_edits fixed_json_edits input_values
      (mkWorld fs (mkFrameSet i je s0) log tmp)
    = (fst (stage_in_store' row_frequency inputs row_id input_values s0),
       mkWorld fs
         (mkFrameSet i (effective_json_edits fixed_json_edits toks)
            (snd (stage_in_store' row_frequency inputs row_id input_values s0)))
         log' tmp)
    /\ (fst (stage_in_store' row_frequency inputs row_id input_values s0) = Ok true ->
        log' = log ++ map (fun iv => no_input_warning (fst iv)) (absent input_values))
    /\ (fst (run_ops (sink_ops add_sink inputs) s0) <> Ok tt -> log' = log).
Proof.
  intros Htoks. unfold ToBids, bind, lift. rewrite Htoks.
  unfold set_json_edits, frameset_add_sink. cbn [w_fs w_frameset w_log w_tmp id state].
  rewrite (for_each_on_store
             (fun inpt => add_sink (BidsInput.name inpt) (BidsInput.datatype inpt)
                                   (BidsInput.path inpt))).
  unfold stage_in_store, sink_ops.
  destruct (run_ops _ s0) as [[[]|e] s1]; cbn [fst snd];
    [|exists log; split; [reflexivity | split; [discriminate | reflexivity]]].
  unfold frameset_row. cbn [w_frameset state].
  destruct (get_row row_frequency row_id s1) as [row|e];
    [|exists log; split; [reflexivity | split; [discriminate | reflexivity]]].
  unfold with_connection, on_store. cbn [w_frameset state].
  destruct (connect s1) as [s2|e];
    [|exists log; split; [reflexivity | split; [discriminate | reflexivity]]].
  unfold set_state. cbn [w_fs w_frameset w_log w_tmp id json_edits state].
  destruct (write_loop row input_values fs i
              (effective_json_edits fixed_json_edits toks) s2 log tmp)
    as (log' & Heq & Hlog).
  rewrite Heq. exists log'.
  destruct (run_ops (write_ops row_setitem row input_values) s2) as [[[]|e] s3];
    cbn [fst snd w_fs w_frameset w_log w_tmp id json_edits state] in *.
  - split; [reflexivity|]. split; [intros _; by apply Hlog | congruence].
  - split; [reflexivity|]. split; congruence.
Qed.

Lemma read_all_length (row : Row) outputs fs (s : S) values :
  read_all row_getitem row outputs fs s = Ok values ->
  List.length values = List.length outputs.
Proof.
  revert values. induction outputs as [|o outputs IH]; intros values; cbn.
  - by intros [= <-].
  - destruct (row_getitem row (BidsOutput.name o) fs s); [|discriminate].
    destruct (read_all row_getitem row outputs fs s) as [vs|]; [|discriminate].
    intros [= <-]. cbn. f_equal. by apply IH.
Qed.

Lemma collect_getitem (row : Row) outputs (w : @World S) :
  collect outputs (fun output => getitem row_getitem row (BidsOutput.name output)) w
  = (read_all row_getitem row outputs (w_fs w) (state (w_frameset w)), w).
Proof.
  induction outputs as [|o outputs IH]; [reflexivity|].
  cbn [collect read_all]. unfold bind.
  change (getitem row_getitem row (BidsOutput.name o) w)
    with (row_getitem row (BidsOutput.name o) (w_fs w) (state (w_frameset w)), w).
  destruct (row_getitem row (BidsOutput.name o) (w_fs w) (state (w_frameset w)));
    [|reflexivity].
  rewrite IH.
  destruct (read_all row_getitem row outputs (w_fs w) (state (w_frameset w)));
    reflexivity.
Qed.

(** The return statement is [one_or_tuple] of the values read. *)
Lemma return_one_or_tuple (outputs : list BidsOutput.t) (values : list Value)
    (w : @World S) :
  List.length values = List.length outputs ->
  (if Nat.ltb 1 (List.length outputs) then ret (Tuple values)
   else match values with
        | v :: _ => ret v
        | [] => raise (IndexError "list index out of range")
        end) w
  = (one_or_tuple values, w).
Proof.
  destruct outputs as [|o1 [|o2 outputs]], values as [|v1 [|v2 values]];
    cbn; intros Hlen; try discriminate; reflexivity.
Qed.

(** [ExtractBids] on a world: the copy, then Extract-Out on the store. *)
Lemma ExtractBids_run row_frequency app_name output_dir outputs row_id app_completed
    fs i je (s0 : S) log tmp :
  ExtractBids' row_frequency app_name output_dir outputs row_id app_completed
    (mkWorld fs (mkFrameSet i je s0) log tmp)
  = match copytree output_dir (derivatives_dest i app_name row_id) fs with
    | Raise e => (Raise e, mkWorld fs (mkFrameSet i je s0) log tmp)
    | Ok fs1 =>
        (fst (extract_out_store' row_frequency app_name outputs row_id fs1 s0),
         mkWorld fs1
           (mkFrameSet i je
              (snd (extract_out_store' row_frequency app_name outputs row_id fs1 s0)))
           log tmp)
    end.
Proof.
  unfold ExtractBids, bind, fs_copytree. cbn [w_fs w_frameset id].
  destruct (copytree output_dir (derivatives_dest i app_name row_id) fs) as [fs1|e];
    [|reflexivity].
  unfold set_fs, frameset_row, extract_out_store. cbn [w_fs w_frameset w_log w_tmp state].
  destruct (get_row row_frequency row_id s0) as [row|e]; [|reflexivity].
  unfold frameset_add_sink.
  rewrite (for_each_on_store
             (fun output => add_sink (BidsOutput.name output) (BidsOutput.datatype output)
                                     (sink_path output app_name))).
  unfold output_sink_ops.
  destruct (run_ops _ s0) as [[[]|e] s1]; cbn [fst snd]; [|reflexivity].
  unfold with_connection, on_store. cbn [w_frameset state].
  destruct (connect s1) as [s2|e]; [|reflexivity].
  rewrite collect_getitem. unfold set_state.
  cbn [w_fs w_frameset w_log w_tmp id json_edits state].
  destruct (read_all row_getitem row outputs fs1 s2) as [values|e] eqn:Hread;
    [|reflexivity].
  rewrite return_one_or_tuple by (eapply read_all_length; eauto).
  reflexivity.
Qed.

(** C2 (the code at the analysis level): for a [session] row the level is
    "participant", and the assignment of the participant label that follows
    reads the name [kwargs], which is not bound: [BidsApp] raises the
    [NameError] there, in the world the earlier steps have left, and no label
    is set.  For any other frequency the level is "group" and no label is
    assigned; the call then raises the [NameError] of [output_fields] when
    the task is defined.  In neither case is a level or a label handed to
    the app. *)
Theorem C2_analysis_level name row_id inputs outputs executable container_image
    parameters row_frequency container_type dataset app_output_dir app_work_dir
    fixed_json_edits flags (w w1 w2 w3 : @World S) out_dir work_dir f ins outs :
  dir_or_temp app_output_dir w = (Ok out_dir, w1) ->
  dir_or_temp app_work_dir w1 = (Ok work_dir, w2) ->
  resolve_frequency row_frequency = Ok f ->
  make_dataset' dataset name w2 = (Ok tt, w3) ->
  ObjectListConverter (BidsInput_of_dict ClassResolver) inputs = Ok ins ->
  ObjectListConverter (BidsOutput_of_dict ClassResolver) outputs = Ok outs ->
  let run := BidsApp' name row_id inputs outputs executable container_image
               parameters row_frequency container_type dataset app_output_dir
               app_work_dir fixed_json_edits flags w in
  (f = session ->
     analysis_level f = "participant" /\
     run = (Raise (NameError "name 'kwargs' is not defined"), w3)) /\
  (f <> session ->
     analysis_level f = "group" /\
     run = (Raise (NameError "name 'output_fields' is not defined"), w3)).
Proof.
  intros H1 H2 H3 H4 H5 H6. cbv zeta.
  rewrite (BidsApp_NameError _ _ _ _ _ _ _ _ _ _ _ _ _ _ _ _ _ _ _ _ _ _ _
             H1 H2 H3 H4 H5 H6).
  unfold analysis_level.
  split; intros Hf; destruct (decide (f = session)); done.
Qed.

(** C3 (the code at the output path): the path for the app is computed as
    the claim has it, the fixed path inside the container with an image and
    the path of the host output directory without one; but no call of
    [BidsApp] returns, with or without an image: when the steps before
    succeed it raises the [NameError] of [kwargs] (for a [session] row) or
    of [output_fields] (otherwise), which comes before the call of the task
    that would be given the path. *)
Theorem C3_output_path name row_id inputs outputs executable container_image
    parameters row_frequency container_type dataset app_output_dir app_work_dir
    fixed_json_edits flags (w : @World S) :
  let run := BidsApp' name row_id inputs outputs executable container_image
               parameters row_frequency container_type dataset app_output_dir
               app_work_dir fixed_json_edits flags w in
  (forall d,
     app_output_path container_image d
     = match container_image with
       | Some _ => CONTAINER_DERIV_PATH
       | None => str_of d
       end) /\
  (exists e, fst run = Raise e) /\
  (forall w1 w2 w3 out_dir work_dir f ins outs,
     dir_or_temp app_output_dir w = (Ok out_dir, w1) ->
     dir_or_temp app_work_dir w1 = (Ok work_dir, w2) ->
     resolve_frequency row_frequency = Ok f ->
     make_dataset' dataset name w2 = (Ok tt, w3) ->
     ObjectListConverter (BidsInput_of_dict ClassResolver) inputs = Ok ins ->
     ObjectListConverter (BidsOutput_of_dict ClassResolver) outputs = Ok outs ->
     run = (Raise (NameError (if decide (f = session)
                              then "name 'kwargs' is not defined"
                              else "name 'output_fields' is not defined")), w3)).
Proof.
  cbv zeta. split; [|split].
  - intros d. destruct container_image; reflexivity.
  - apply BidsApp_raises.
  - intros. eapply BidsApp_NameError; eauto.
Qed.

(** C4 (as amended): the user's string is split into tokens as a shell
    would; the tokens are taken two by two as key and value and the pairs are
    put after the fixed edits; with an odd number of tokens the last one is
    left out and nothing is raised for it: the outcome is that of Stage-In on
    the store, whatever the tokens.  Only a string that cannot be split (an
    open quote, a trailing escape) is an error, raised before any effect. *)
Theorem C4_json_edits row_frequency inputs row_id user_json_edits fixed_json_edits
    input_values (w : @World S) :
  match json_edit_tokens user_json_edits with
  | Raise e =>
      ToBids' row_frequency inputs row_id user_json_edits fixed_json_edits
        input_values w = (Raise e, w)
  | Ok toks =>
      json_edits (w_frameset (snd (ToBids' row_frequency inputs row_id user_json_edits
                                     fixed_json_edits input_values w)))
      = fixed_json_edits ++ map (fun kv => JsonEdit.mk (fst kv) (snd kv)) (pairs toks)
      /\ List.length (pairs toks) = Nat.div2 (List.length toks)
      /\ fst (ToBids' row_frequency inputs row_id user_json_edits fixed_json_edits
               input_values w)
         = fst (stage_in_store' row_frequency inputs row_id input_values
                  (state (w_frameset w)))
  end.
Proof.
  destruct (json_edit_tokens user_json_edits) as [toks|e] eqn:Htoks.
  - destruct w as [fs [i je s0] log tmp].
    destruct (ToBids_run row_frequency inputs row_id user_json_edits fixed_json_edits
                input_values fs i je s0 log tmp toks Htoks) as (log' & -> & _).
    cbn [fst snd w_frameset json_edits state].
    rewrite effective_json_edits_pairs. auto using pairs_length.
  - unfold ToBids, bind, lift. by rewrite Htoks.
Qed.

(** C5 (as amended): the wrapper has no check of its own for repeated
    names.  The descriptor lists are converted item by item, and a list is
    accepted exactly when each of its items is, whatever names the items
    carry.  [ToBids] registers a sink for every input descriptor, in order,
    before it writes anything: when the dataset refuses a registration the
    task raises that error and the store is as the registrations left it, no
    value written and no warning logged.  The output descriptors are no
    argument of [ToBids]; [ExtractBids] registers their sinks after the copy
    of the output directory, so when the dataset refuses one of them the
    task raises with the copy made. *)
Theorem C5_duplicate_names :
  (forall inputs ins,
     ObjectListConverter (BidsInput_of_dict ClassResolver) inputs = Ok ins <->
     Forall2 (fun item o => convert_item (BidsInput_of_dict ClassResolver) item = Ok o)
             inputs ins) /\
  (forall outputs outs,
     ObjectListConverter (BidsOutput_of_dict ClassResolver) outputs = Ok outs <->
     Forall2 (fun item o => convert_item (BidsOutput_of_dict ClassResolver) item = Ok o)
             outputs outs) /\
  (forall row_frequency inputs row_id user_json_edits fixed input_values
          (w : @World S) toks e s1,
     json_edit_tokens user_json_edits = Ok toks ->
     run_ops (sink_ops add_sink inputs) (state (w_frameset w)) = (Raise e, s1) ->
     ToBids' row_frequency inputs row_id user_json_edits fixed input_values w
     = (Raise e,
        mkWorld (w_fs w)
          (mkFrameSet (id (w_frameset w)) (effective_json_edits fixed toks) s1)
          (w_log w) (w_tmp w))) /\
  (forall row_frequency app_name output_dir outputs row_id app_completed
          (w : @World S) fs1 row e s1,
     copytree output_dir (derivatives_dest (id (w_frameset w)) app_name row_id)
              (w_fs w) = Ok fs1 ->
     get_row row_frequency row_id (state (w_frameset w)) = Ok row ->
     run_ops (output_sink_ops add_sink app_name outputs) (state (w_frameset w))
     = (Raise e, s1) ->
     ExtractBids' row_frequency app_name output_dir outputs row_id app_completed w
     = (Raise e,
        mkWorld fs1
          (mkFrameSet (id (w_frameset w)) (json_edits (w_frameset w)) s1)
          (w_log w) (w_tmp w))).
Proof.
  split; [|split; [|split]].
  - intros inputs ins. apply ObjectListConverter_Forall2.
  - intros outputs outs. apply ObjectListConverter_Forall2.
  - intros row_frequency inputs row_id user_json_edits fixed input_values
           [fs [i je s0] log tmp] toks e s1 Htoks Hreg.
    cbn [w_fs w_frameset w_log w_tmp id state] in *.
    destruct (ToBids_run row_frequency inputs row_id user_json_edits fixed input_values
                fs i je s0 log tmp toks Htoks) as (log' & -> & _ & Hlog).
    rewrite Hlog by (rewrite Hreg; discriminate).
    unfold stage_in_store. rewrite Hreg. reflexivity.
  - intros row_frequency app_name output_dir outputs row_id app_completed
           [fs [i je s0] log tmp] fs1 row e s1 Hcopy Hrow Hreg.
    cbn [w_fs w_frameset w_log w_tmp id json_edits state] in *.
    rewrite ExtractBids_run, Hcopy. unfold extract_out_store.
    rewrite Hrow, Hreg. reflexivity.
Qed.

(** C6: the output directory is copied to
    [<dataset>/derivatives/<app name>/sub-<row id>] (for plain names these
    are the components added to the path of the dataset).  When that destination
    exists already the task raises and the world is left as it was: nothing
    is overwritten.  When it does not, the tree below the output directory is
    found below the destination afterwards, and nothing else in the file
    system changes but the directories leading to it. *)
Theorem C6_derivatives_copy row_frequency app_name output_dir outputs row_id
    app_completed (w : @World S) :
  let dest := (Path_of (id (w_frameset w)) </> "derivatives" </> app_name
               </> ("sub-" +:+ row_id))%path in
  let run := ExtractBids' row_frequency app_name output_dir outputs row_id
               app_completed w in
  (contains "/" app_name = false -> is_component app_name = true ->
   contains "/" row_id = false ->
     dest = mkPath (anchor (Path_of (id (w_frameset w))))
                   (parts (Path_of (id (w_frameset w)))
                    ++ ["derivatives"; app_name; "sub-" +:+ row_id]))
  /\
  (exists_at (w_fs w) dest = true ->
     (exists e, run = (Raise e, w)) /\
     (is_dir (w_fs w) output_dir = true -> run = (Raise (FileExistsError (str_of dest)), w)))
  /\
  (is_dir (w_fs w) output_dir = true ->
   exists_at (w_fs w) dest = false ->
   blocked (w_fs w) dest = false ->
   strip_prefix (key output_dir) (key dest) = None ->
     w_fs (snd run) (key dest) = Some Dir /\
     (forall rel, rel <> [] ->
        w_fs (snd run) (key dest ++ rel) = w_fs w (key output_dir ++ rel)) /\
     (forall k, strip_prefix (key dest) k = None ->
        is_ancestor_or_self k (key dest) = false -> w_fs (snd run) k = w_fs w k)).
Proof.
  destruct w as [fs [i je s0] log tmp]. cbv zeta. cbn [w_fs w_frameset id].
  rewrite ExtractBids_run.
  fold (derivatives_dest i app_name row_id).
  split; [apply derivatives_dest_plain|].
  generalize (derivatives_dest i app_name row_id) as dest. intros dest.
  split.
  - intros Hex. unfold copytree, is_dir.
    destruct (fs_lookup fs (key output_dir)) as [[|c]|]; rewrite ?Hex; split; eauto; discriminate.
  - intros Hdir Hnew Hfree Hout. unfold copytree, is_dir in *.
    destruct (fs_lookup fs (key output_dir)) as [[|c]|]; try discriminate.
    rewrite Hnew, Hfree. cbn [snd w_fs].
    pose proof (strip_prefix_app (key dest)) as Hself.
    split; [|split].
    + specialize (Hself []). rewrite app_nil_r in Hself. by rewrite Hself.
    + intros rel Hrel. rewrite Hself. destruct rel; [done | reflexivity].
    + intros k Hk Hanc. rewrite Hk. unfold makedirs. rewrite Hanc.
      destruct (fs k); reflexivity.
Qed.

(** C8: an input whose value is the absent marker is not written: the
    outcome of [ToBids] and the store it leaves are those of Stage-In with
    the absent inputs taken away, so an absent input never stops the run; a
    run that completes has logged one warning for each absent input, in
    their order, and has written every provided value, in order, to the row
    addressed by the frequency and the id. *)
Theorem C8_absent_inputs row_frequency inputs row_id user_json_edits fixed_json_edits
    input_values (w : @World S) toks :
  json_edit_tokens user_json_edits = Ok toks ->
  let run := ToBids' row_frequency inputs row_id user_json_edits fixed_json_edits
               input_values w in
  let run' := ToBids' row_frequency inputs row_id user_json_edits fixed_json_edits
                (provided input_values) w in
  fst run = fst run' /\
  state (w_frameset (snd run)) = state (w_frameset (snd run')) /\
  w_fs (snd run) = w_fs w /\
  (fst run = Ok true ->
     w_log (snd run)
     = w_log w ++ map (fun iv => no_input_warning (fst iv)) (absent input_values) /\
     exists s1 row s2 s3,
       run_ops (sink_ops add_sink inputs) (state (w_frameset w)) = (Ok tt, s1) /\
       get_row row_frequency row_id s1 = Ok row /\
       connect s1 = Ok s2 /\
       run_ops (map (fun iv => row_setitem row (fst iv) (snd iv)) (provided input_values))
               s2 = (Ok tt, s3) /\
       state (w_frameset (snd run)) = disconnect s3).
Proof.
  intros Htoks. destruct w as [fs [i je s0] log tmp]. cbv zeta.
  destruct (ToBids_run row_frequency inputs row_id user_json_edits fixed_json_edits
              input_values fs i je s0 log tmp toks Htoks) as (log1 & -> & Hlog1 & _).
  destruct (ToBids_run row_frequency inputs row_id user_json_edits fixed_json_edits
              (provided input_values) fs i je s0 log tmp toks Htoks) as (log2 & -> & _).
  cbn [fst snd w_fs w_frameset w_log state].
  assert (Hsame : stage_in_store' row_frequency inputs row_id (provided input_values) s0
                  = stage_in_store' row_frequency inputs row_id input_values s0).
  { unfold stage_in_store, write_ops. by rewrite provided_idem. }
  rewrite Hsame. repeat split.
  - by apply Hlog1.
  - clear Hsame Hlog1. unfold stage_in_store, write_ops in *.
    destruct (run_ops (sink_ops add_sink inputs) s0) as [[[]|e] s1]; [|discriminate].
    destruct (get_row row_frequency row_id s1) as [row|e] eqn:Hrow; [|discriminate].
    destruct (connect s1) as [s2|e] eqn:Hconn; [|discriminate].
    destruct (run_ops _ s2) as [[[]|e] s3] eqn:Hw; [|discriminate].
    exists s1, row, s2, s3. auto.
Qed.

Lemma read_all_Forall2 (row : Row) outputs fs (s : S) values :
  read_all row_getitem row outputs fs s = Ok values <->
  Forall2 (fun output v => row_getitem row (BidsOutput.name output) fs s = Ok v)
          outputs values.
Proof.
  revert values. induction outputs as [|o outputs IH]; intros values; cbn.
  - split; [intros [= <-]; constructor | intros Hf; by inversion Hf].
  - split.
    + destruct (row_getitem row (BidsOutput.name o) fs s) as [v|] eqn:Hv; [|discriminate].
      destruct (read_all row_getitem row outputs fs s) as [vs|]; [|discriminate].
      intros [= <-]. constructor; [exact Hv | by apply IH].
    + intros Hf. inversion Hf as [|? v ? vs Hv Hvs]; subst.
      rewrite Hv. apply IH in Hvs. by rewrite Hvs.
Qed.

(** C9 (as amended): with at least one output descriptor, [ExtractBids]
    returns exactly when the copy, the row, the registrations, the
    connection and every read succeed, and what it returns is the value read
    for the one output, or the tuple of the values read, in the order of the
    descriptors, when there are more; nothing else is returned with it. *)
Theorem C9_one_or_tuple row_frequency app_name output_dir outputs row_id
    app_completed (w : @World S) (v : Value) :
  outputs <> [] ->
  fst (ExtractBids' row_frequency app_name output_dir outputs row_id app_completed w)
  = Ok v
  <->
  exists fs1 row s1 s2 values,
    copytree output_dir (derivatives_dest (id (w_frameset w)) app_name row_id) (w_fs w)
    = Ok fs1 /\
    get_row row_frequency row_id (state (w_frameset w)) = Ok row /\
    run_ops (output_sink_ops add_sink app_name outputs) (state (w_frameset w))
    = (Ok tt, s1) /\
    connect s1 = Ok s2 /\
    Forall2 (fun output x => row_getitem row (BidsOutput.name output) fs1 s2 = Ok x)
            outputs values /\
    v = match values with
        | [x] => x
        | _ => Tuple values
        end.
Proof.
  intros Hne. destruct w as [fs [i je s0] log tmp]. rewrite ExtractBids_run.
  cbn [w_fs w_frameset id state]. unfold extract_out_store.
  split.
  - destruct (copytree _ _ fs) as [fs1|e]; [|discriminate]. cbn [fst].
    destruct (get_row row_frequency row_id s0) as [row|e]; [|discriminate].
    destruct (run_ops _ s0) as [[[]|e] s1]; [|discriminate].
    destruct (connect s1) as [s2|e] eqn:Hconn; [|discriminate].
    destruct (read_all row_getitem row outputs fs1 s2) as [values|e] eqn:Hread;
      [|discriminate].
    cbn [fst]. intros Hv. exists fs1, row, s1, s2, values.
    apply read_all_Forall2 in Hread.
    repeat split; auto.
    destruct values as [|x [|y vs]]; cbn in Hv; congruence.
  - intros (fs1 & row & s1 & s2 & values & -> & -> & -> & -> & Hread & ->).
    cbn [fst]. pose proof Hread as Hlen%Forall2_length.
    apply read_all_Forall2 in Hread. rewrite Hread. cbn [fst].
    destruct outputs as [|o outputs]; [done|].
    destruct values as [|x [|y vs]]; [discriminate | reflexivity..].
Qed.

(** C10: with no output descriptor [ExtractBids] never returns a value.
    When the copy, the row and the connection succeed it raises the
    [IndexError] of indexing the empty list of values, after the copy has
    been made. *)
Theorem C10_no_outputs row_frequency app_name output_dir row_id app_completed
    (w : @World S) :
  (exists e, fst (ExtractBids' row_frequency app_name output_dir [] row_id
                    app_completed w) = Raise e) /\
  forall fs1 row s2,
    copytree output_dir (derivatives_dest (id (w_frameset w)) app_name row_id) (w_fs w)
    = Ok fs1 ->
    get_row row_frequency row_id (state (w_frameset w)) = Ok row ->
    connect (state (w_frameset w)) = Ok s2 ->
    ExtractBids' row_frequency app_name output_dir [] row_id app_completed w
    = (Raise (IndexError "list index out of range"),
       mkWorld fs1
         (mkFrameSet (id (w_frameset w)) (json_edits (w_frameset w)) (disconnect s2))
         (w_log w) (w_tmp w)).
Proof.
  destruct w as [fs [i je s0] log tmp]. rewrite ExtractBids_run.
  cbn [w_fs w_frameset w_log w_tmp id json_edits state].
  unfold extract_out_store. cbn [output_sink_ops map run_ops read_all one_or_tuple].
  split.
  - destruct (copytree _ _ fs) as [fs1|e]; [|eauto]. cbn [fst].
    destruct (get_row row_frequency row_id s0) as [row|e]; [|eauto].
    destruct (connect s0) as [s2|e]; eauto.
  - intros fs1 row s2 -> -> ->. reflexivity.
Qed.

End WorkflowProperties.

(** ** The fields of the parameters *)

(** C7 (the code at a boolean parameter): the field made for the parameter
    [verbose] of type [bool] has the item, not the name, in its flag, and
    the value placeholder after it; so has the field of every parameter. *)
Theorem C7_param_flag :
  argstr (param_field ("verbose", Py.bool)) = Some "--('verbose', <class 'bool'>) %s"
  /\ forall param : string * PyType,
       argstr (param_field param) = Some ("--" +:+ repr_item param +:+ " %s").
Proof. split; [reflexivity | intros param; reflexivity]. Qed.

(** ** The wrapper on concrete runs *)



(** A call for the session [01] raises at the participant label; a call
    for a whole subject raises when the task is defined. *)
Lemma C2_analysis_level_witness :
  fst (Mem.BidsApp "myapp" "01" [inl Mem.T1w] [inl Mem.recon] "" None None
         (inr "session") "docker" DatasetObject (Some (Path_of "/out"))
         (Some (Path_of "/work")) None "--fast" Mem.w0)
  = Raise (NameError "name 'kwargs' is not defined")
  /\ fst (Mem.BidsApp "myapp" "01" [inl Mem.T1w] [inl Mem.recon] "" None None
            (inl subject) "docker" DatasetObject (Some (Path_of "/out"))
            (Some (Path_of "/work")) None "--fast" Mem.w0)
     = Raise (NameError "name 'output_fields' is not defined").
Proof.
  split.
  - destruct (C2_analysis_level Mem.ClassResolver Mem.create_dataset "1.0"
                "myapp" "01" [inl Mem.T1w] [inl Mem.recon] "" None None
                (inr "session") "docker" DatasetObject (Some (Path_of "/out"))
                (Some (Path_of "/work")) None "--fast" Mem.w0
                (snd (dir_or_temp (Some (Path_of "/out")) Mem.w0))
                (snd (dir_or_temp (Some (Path_of "/work"))
                        (snd (dir_or_temp (Some (Path_of "/out")) Mem.w0))))
                (snd (dir_or_temp (Some (Path_of "/work"))
                        (snd (dir_or_temp (Some (Path_of "/out")) Mem.w0))))
                (Path_of "/out") (Path_of "/work") session [Mem.T1w] [Mem.recon]
                eq_refl eq_refl eq_refl eq_refl eq_refl eq_refl) as (Hsession & _).
    destruct (Hsession eq_refl) as (_ & Hrun).
    unfold Mem.BidsApp. rewrite Hrun. reflexivity.
  - destruct (C2_analysis_level Mem.ClassResolver Mem.create_dataset "1.0"
                "myapp" "01" [inl Mem.T1w] [inl Mem.recon] "" None None
                (inl subject) "docker" DatasetObject (Some (Path_of "/out"))
                (Some (Path_of "/work")) None "--fast" Mem.w0
                (snd (dir_or_temp (Some (Path_of "/out")) Mem.w0))
                (snd (dir_or_temp (Some (Path_of "/work"))
                        (snd (dir_or_temp (Some (Path_of "/out")) Mem.w0))))
                (snd (dir_or_temp (Some (Path_of "/work"))
                        (snd (dir_or_temp (Some (Path_of "/out")) Mem.w0))))
                (Path_of "/out") (Path_of "/work") subject [Mem.T1w] [Mem.recon]
                eq_refl eq_refl eq_refl eq_refl eq_refl eq_refl) as (_ & Hgroup).
    destruct (Hgroup ltac:(discriminate)) as (_ & Hrun).
    unfold Mem.BidsApp. rewrite Hrun. reflexivity.
Defined.

(** A call with an image, for a whole subject and into a new dataset at
    [/newds]: the path for the app is the one inside the container, and the
    call raises before the app is given it. *)
Lemma C3_output_path_witness :
  app_output_path (Some "bids/myapp:1.0") (Path_of "/out") = "/frametree_bids_outputs"
  /\ fst (Mem.BidsApp "myapp" "01" [inl Mem.T1w] [inl Mem.recon] ""
            (Some "bids/myapp:1.0") None (inl subject) "docker" (DatasetAt "/newds")
            (Some (Path_of "/out")) (Some (Path_of "/work")) None "--fast" Mem.w0)
     = Raise (NameError "name 'output_fields' is not defined").
Proof.
  destruct (C3_output_path Mem.ClassResolver Mem.create_dataset "1.0"
              "myapp" "01" [inl Mem.T1w] [inl Mem.recon] "" (Some "bids/myapp:1.0") None
              (inl subject) "docker" (DatasetAt "/newds") (Some (Path_of "/out"))
              (Some (Path_of "/work")) None "--fast" Mem.w0) as (Hpath & _ & Hrun).
  split; [exact (Hpath (Path_of "/out"))|].
  unfold Mem.BidsApp.
  rewrite (Hrun (snd (dir_or_temp (Some (Path_of "/out")) Mem.w0))
             (snd (dir_or_temp (Some (Path_of "/work"))
                     (snd (dir_or_temp (Some (Path_of "/out")) Mem.w0))))
             (snd (make_dataset Mem.create_dataset "1.0" (DatasetAt "/newds") "myapp"
                     (snd (dir_or_temp (Some (Path_of "/work"))
                             (snd (dir_or_temp (Some (Path_of "/out")) Mem.w0))))))
             (Path_of "/out") (Path_of "/work") subject [Mem.T1w] [Mem.recon]
             eq_refl eq_refl eq_refl eq_refl eq_refl eq_refl).
  reflexivity.
Defined.

(** Three tokens, an odd number: the run completes and the last token is
    dropped. *)
Lemma C4_counterexample :
  json_edit_tokens "a 1 b" = Ok ["a"; "1"; "b"]
  /\ Nat.odd (List.length ["a"; "1"; "b"]) = true
  /\ fst (Mem.ToBids session [Mem.T1w] "01" "a 1 b" [JsonEdit.mk "a" "0"]
            Mem.the_input Mem.w0) = Ok true
  /\ json_edits (w_frameset (snd (Mem.ToBids session [Mem.T1w] "01" "a 1 b"
                                    [JsonEdit.mk "a" "0"] Mem.the_input Mem.w0)))
     = [JsonEdit.mk "a" "0"; JsonEdit.mk "a" "1"].
Proof. repeat split; vm_compute; reflexivity. Qed.

(** The edits of the specification's example, fixed [(a, 1)] and the user's
    string [a 2 b 3]: the user's pairs come after the fixed one. *)
Lemma C4_json_edits_witness :
  json_edits (w_frameset (snd (Mem.ToBids session [Mem.T1w] "01" "a 2 b 3"
                                 [JsonEdit.mk "a" "1"] Mem.the_input Mem.w0)))
  = [JsonEdit.mk "a" "1"; JsonEdit.mk "a" "2"; JsonEdit.mk "b" "3"].
Proof.
  pose proof (C4_json_edits Mem.add_sink Mem.get_row Mem.row_setitem Mem.connect
                Mem.disconnect session [Mem.T1w] "01" "a 2 b 3" [JsonEdit.mk "a" "1"]
                Mem.the_input Mem.w0) as H.
  change (json_edit_tokens "a 2 b 3") with (Ok ["a"; "2"; "b"; "3"]) in H.
  destruct H as (H & _). exact H.
Defined.

(** A store that refuses a second registration: [ToBids] with a repeated
    input name raises at the second sink and nothing is written;
    [ExtractBids] with a repeated output name raises at the second sink,
    with the copy made. *)
Lemma C5_duplicate_names_witness :
  (fst (Mem.ToBids session [Mem.T1w; Mem.T1w] "01" "" [] Mem.the_input Mem.w0)
   = Raise (StoreError "T1w already exists in dataset columns")
   /\ Mem.items (state (w_frameset
        (snd (Mem.ToBids session [Mem.T1w; Mem.T1w] "01" "" [] Mem.the_input Mem.w0))))
      = [])
  /\ (fst (Mem.ExtractBids session "myapp" (Path_of "/out") [Mem.recon; Mem.recon] "01"
             true Mem.w0)
      = Raise (StoreError "recon already exists in dataset columns")
      /\ w_fs (snd (Mem.ExtractBids session "myapp" (Path_of "/out")
                      [Mem.recon; Mem.recon] "01" true Mem.w0))
         = Mem.fs_copied).
Proof.
  destruct (C5_duplicate_names Mem.add_sink Mem.get_row Mem.row_setitem Mem.row_getitem
              Mem.connect Mem.disconnect Mem.ClassResolver)
    as (_ & _ & Hstage & Hextract).
  split.
  - specialize (Hstage session [Mem.T1w; Mem.T1w] "01" "" [] Mem.the_input Mem.w0 []
                  (StoreError "T1w already exists in dataset columns")
                  (Mem.mkStore "/ds" [("T1w", Mem.mkColumn "NiftiGzX" "anat/T1w")]
                               [(session, "01")] [] 0)
                  eq_refl eq_refl).
    unfold Mem.ToBids. rewrite Hstage. split; reflexivity.
  - specialize (Hextract session "myapp" (Path_of "/out") [Mem.recon; Mem.recon] "01"
                  true Mem.w0 Mem.fs_copied (session, "01")
                  (StoreError "recon already exists in dataset columns")
                  (Mem.mkStore "/ds"
                     [("recon", Mem.mkColumn "Directory" "freesurfer/recon-all@myapp")]
                     [(session, "01")] [] 0)
                  eq_refl eq_refl eq_refl).
    unfold Mem.ExtractBids. rewrite Hextract. split; reflexivity.
Defined.

(** A repeated input name, in a store that takes every registration:
    [ToBids] completes and writes.  A repeated output name, in a store that
    refuses a second registration: [ToBids] completes and writes the input,
    and [ExtractBids] raises for the name only afterwards, the output
    directory copied. *)
Lemma C5_counterexample :
  (~ NoDup (map BidsInput.name [Mem.T1w; Mem.T1w])
   /\ KV.ToBids session [Mem.T1w; Mem.T1w] "01" "" [] Mem.the_input KV.w0
      = (Ok true,
         mkWorld Mem.fs0
           (mkFrameSet "/ds" [] [((session, "01"), "T1w", Str "/tmp/in.nii.gz")]) [] 0))
  /\ (~ NoDup (map BidsOutput.name [Mem.recon; Mem.recon])
      /\ fst (Mem.ToBids session [Mem.T1w] "01" "" [] Mem.the_input Mem.w0) = Ok true
      /\ Mem.items (state (w_frameset
           (snd (Mem.ToBids session [Mem.T1w] "01" "" [] Mem.the_input Mem.w0))))
         = [((session, "01"), "T1w", Str "/tmp/in.nii.gz")]
      /\ fst (Mem.ExtractBids session "myapp" (Path_of "/out") [Mem.recon; Mem.recon]
                "01" true
                (snd (Mem.ToBids session [Mem.T1w] "01" "" [] Mem.the_input Mem.w0)))
         = Raise (StoreError "recon already exists in dataset columns")
      /\ w_fs (snd (Mem.ExtractBids session "myapp" (Path_of "/out")
                      [Mem.recon; Mem.recon] "01" true
                      (snd (Mem.ToBids session [Mem.T1w] "01" "" [] Mem.the_input
                              Mem.w0))))
              ["/"; "ds"; "derivatives"; "myapp"; "sub-01"; "freesurfer"; "recon-all"]
         = Some (File "surfaces")).
Proof.
  split; (split; [intros Hnd; inversion Hnd as [|? ? Hnotin _]; subst; apply Hnotin; left|]).
  - vm_compute. reflexivity.
  - repeat split; vm_compute; reflexivity.
Qed.

(** Into a dataset whose derivatives for the row exist the copy is refused
    and the world stays as it was; into [w0] the tree of [/out] arrives
    below [/ds/derivatives/myapp/sub-01]. *)
Lemma C6_derivatives_copy_witness :
  Mem.ExtractBids session "myapp" (Path_of "/out") [Mem.report] "01" true Mem.w_again
  = (Raise (FileExistsError "/ds/derivatives/myapp/sub-01"), Mem.w_again)
  /\ w_fs (snd (Mem.ExtractBids session "myapp" (Path_of "/out") [Mem.recon] "01" true
                  Mem.w0))
       ["/"; "ds"; "derivatives"; "myapp"; "sub-01"; "freesurfer"; "recon-all"]
     = Some (File "surfaces").
Proof.
  split.
  - pose proof (C6_derivatives_copy Mem.add_sink Mem.get_row Mem.row_getitem
                  Mem.connect Mem.disconnect session "myapp" (Path_of "/out")
                  [Mem.report] "01" true Mem.w_again) as (_ & Hexists & _).
    destruct (Hexists eq_refl) as (_ & Hraise).
    exact (Hraise eq_refl).
  - pose proof (C6_derivatives_copy Mem.add_sink Mem.get_row Mem.row_getitem
                  Mem.connect Mem.disconnect session "myapp" (Path_of "/out")
                  [Mem.recon] "01" true Mem.w0) as (_ & _ & Hcopy).
    destruct (Hcopy eq_refl eq_refl eq_refl eq_refl) as (_ & Htree & _).
    specialize (Htree ["freesurfer"; "recon-all"] ltac:(discriminate)).
    exact Htree.
Defined.

(** One input provided, one absent: the run completes, the provided value
    is in the row, the absent one has its warning. *)
Lemma C8_absent_inputs_witness :
  fst (Mem.ToBids session [Mem.T1w; Mem.FLAIR] "01" "" []
         [("T1w", Str "/tmp/in.nii.gz"); ("FLAIR", NOTHING)] Mem.w0) = Ok true
  /\ w_log (snd (Mem.ToBids session [Mem.T1w; Mem.FLAIR] "01" "" []
                   [("T1w", Str "/tmp/in.nii.gz"); ("FLAIR", NOTHING)] Mem.w0))
     = [WARNING "No input provided for 'FLAIR' input"]
  /\ Mem.items (state (w_frameset
       (snd (Mem.ToBids session [Mem.T1w; Mem.FLAIR] "01" "" []
               [("T1w", Str "/tmp/in.nii.gz"); ("FLAIR", NOTHING)] Mem.w0))))
     = [((session, "01"), "T1w", Str "/tmp/in.nii.gz")].
Proof.
  pose proof (C8_absent_inputs Mem.add_sink Mem.get_row Mem.row_setitem Mem.connect
                Mem.disconnect session [Mem.T1w; Mem.FLAIR] "01" "" []
                [("T1w", Str "/tmp/in.nii.gz"); ("FLAIR", NOTHING)] Mem.w0 [] eq_refl)
    as (Hsame & Hstate & _ & Hdone).
  assert (Hok : fst (Mem.ToBids session [Mem.T1w; Mem.FLAIR] "01" "" []
                       [("T1w", Str "/tmp/in.nii.gz"); ("FLAIR", NOTHING)] Mem.w0)
                = Ok true) by (vm_compute; reflexivity).
  destruct (Hdone Hok) as (Hlog & _).
  split; [exact Hok|]. split; [exact Hlog|].
  unfold Mem.ToBids. rewrite Hstate. vm_compute. reflexivity.
Defined.

(** Two outputs: the tuple of the two values read, in their order. *)
Lemma C9_one_or_tuple_witness :
  fst (Mem.ExtractBids session "myapp" (Path_of "/out") [Mem.recon; Mem.report] "01"
         true Mem.w0)
  = Ok (Tuple [Str "/ds/derivatives/myapp/sub-01/freesurfer/recon-all";
               Str "/ds/derivatives/myapp/sub-01/report.html"]).
Proof.
  apply (C9_one_or_tuple Mem.add_sink Mem.get_row Mem.row_getitem Mem.connect
           Mem.disconnect session "myapp" (Path_of "/out") [Mem.recon; Mem.report] "01"
           true Mem.w0); [discriminate|].
  exists Mem.fs_copied, (session, "01"),
    (Mem.mkStore "/ds"
       [("recon", Mem.mkColumn "Directory" "freesurfer/recon-all@myapp");
        ("report", Mem.mkColumn "Html" "report.html@myapp")]
       [(session, "01")] [] 0),
    (Mem.mkStore "/ds"
       [("recon", Mem.mkColumn "Directory" "freesurfer/recon-all@myapp");
        ("report", Mem.mkColumn "Html" "report.html@myapp")]
       [(session, "01")] [] 1),
    [Str "/ds/derivatives/myapp/sub-01/freesurfer/recon-all";
     Str "/ds/derivatives/myapp/sub-01/report.html"].
  repeat split; try reflexivity.
  repeat constructor.
Defined.

(** One output: the value read, and nothing with it. *)
Lemma C9_counterexample :
  fst (Mem.ExtractBids session "myapp" (Path_of "/out") [Mem.recon] "01" true Mem.w0)
  = Ok (Str "/ds/derivatives/myapp/sub-01/freesurfer/recon-all")
  /\ ~ with_completion_signal (Str "/ds/derivatives/myapp/sub-01/freesurfer/recon-all").
Proof.
  split; [vm_compute; reflexivity|].
  intros (x & b & H). discriminate.
Qed.

(** No output descriptor: the copy is made, then the task raises. *)
Lemma C10_no_outputs_witness :
  Mem.ExtractBids session "myapp" (Path_of "/out") [] "01" true Mem.w0
  = (Raise (IndexError "list index out of range"),
     mkWorld Mem.fs_copied (mkFrameSet "/ds" [] (Mem.disconnect
       (Mem.mkStore "/ds" [] [(session, "01")] [] 1))) [] 0).
Proof.
  pose proof (C10_no_outputs Mem.add_sink Mem.get_row Mem.row_getitem Mem.connect
                Mem.disconnect session "myapp" (Path_of "/out") "01" true Mem.w0)
    as (_ & Hraise).
  exact (Hraise Mem.fs_copied (session, "01")
           (Mem.mkStore "/ds" [] [(session, "01")] [] 1) eq_refl eq_refl eq_refl).
Defined.

(** * Further properties of the wrapper *)

(** ** [SelectInputs] *)

Lemma select_values_Forall2 (input_names : list string) (d : gmap string Value)
    (vs : list Value) :
  select_values input_names d = Ok vs <->
  Forall2 (fun n v => d !! n = Some v) input_names vs.
Proof.
  revert vs. induction input_names as [|n ns IH]; intros vs; cbn.
  - split; [intros [= <-]; constructor | intros Hf; by inversion Hf].
  - split.
    + destruct (d !! n) as [v|] eqn:Hn; [|discriminate].
      destruct (select_values ns d) as [vs'|]; [|discriminate].
      intros [= <-]. constructor; [exact Hn | by apply IH].
    + intros Hf. inversion Hf as [|? v ? vs' Hn Hvs]; subst.
      rewrite Hn. apply IH in Hvs. by rewrite Hvs.
Qed.

(** [SelectInputs] returns exactly when every name is a key, and then the
    tuple of the values at the names, in their order, one for each name (a
    tuple also for a single name); keys that are not asked for play no part;
    the first name that is not a key is the one of the [KeyError]. *)
Theorem SelectInputs_spec (input_names : list string) (d : gmap string Value) :
  (forall v, SelectInputs input_names d = Ok v <->
     exists vs, Forall2 (fun n x => d !! n = Some x) input_names vs /\ v = Tuple vs)
  /\ (forall (d' : gmap string Value) v,
        d ⊆ d' -> SelectInputs input_names d = Ok v -> SelectInputs input_names d' = Ok v)
  /\ (forall pre n post,
        input_names = pre ++ n :: post ->
        Forall (fun m => is_Some (d !! m)) pre ->
        d !! n = None ->
        SelectInputs input_names d = Raise (KeyError n)).
Proof.
  split; [|split].
  - intros v. unfold SelectInputs. split.
    + destruct (select_values input_names d) as [vs|] eqn:Hs; [|discriminate].
      intros [= <-]. exists vs. split; [by apply select_values_Forall2 | reflexivity].
    + intros (vs & Hvs & ->). apply select_values_Forall2 in Hvs. by rewrite Hvs.
  - intros d' v Hsub. unfold SelectInputs.
    destruct (select_values input_names d) as [vs|] eqn:Hs; [|discriminate].
    intros [= <-]. apply select_values_Forall2 in Hs.
    assert (Hs' : Forall2 (fun n x => d' !! n = Some x) input_names vs).
    { eapply Forall2_impl; [exact Hs|]. intros n x Hn. cbn in *.
      eapply lookup_weaken; eauto. }
    apply select_values_Forall2 in Hs'. by rewrite Hs'.
  - intros pre n post -> Hpre Hn. unfold SelectInputs.
    induction Hpre as [|m pre [x Hm] _ IH]; cbn.
    + by rewrite Hn.
    + rewrite Hm. destruct (select_values (pre ++ n :: post) d); [discriminate|].
      exact IH.
Qed.

(** ** The destination of the copy *)

Lemma strip_prefix_diff (base t u : list string) (x y : string) :
  x <> y -> strip_prefix (base ++ x :: t) (base ++ y :: u) = None.
Proof.
  intros Hxy. induction base as [|b base IH]; cbn.
  - apply String.eqb_neq in Hxy. by rewrite Hxy.
  - by rewrite String.eqb_refl.
Qed.

(** For plain names, different apps or different rows never share a
    destination. *)
Theorem derivatives_dest_distinct (dataset_id app_name app_name' row_id row_id' : string) :
  contains "/" app_name = false -> is_component app_name = true ->
  contains "/" app_name' = false -> is_component app_name' = true ->
  contains "/" row_id = false -> contains "/" row_id' = false ->
  app_name <> app_name' \/ row_id <> row_id' ->
  derivatives_dest dataset_id app_name row_id
  <> derivatives_dest dataset_id app_name' row_id'.
Proof.
  intros Ha Hc Ha' Hc' Hr Hr' Hne.
  rewrite (derivatives_dest_plain _ _ _ Ha Hc Hr),
          (derivatives_dest_plain _ _ _ Ha' Hc' Hr').
  intros [= Heq]. apply app_inv_head in Heq. injection Heq as Happ Hrow.
  destruct Hne as [Hne|Hne]; [exact (Hne Happ) | exact (Hne Hrow)].
Qed.

(** An app name that starts with a slash takes the copy out of the
    dataset: the destination is the app name's own path and the row's
    directory, wherever the dataset is. *)
Theorem derivatives_dest_absolute_app (dataset_id rest row_id : string) :
  derivatives_dest dataset_id (String "/" rest) row_id
  = (Path_of (String "/" rest) </> ("sub-" +:+ row_id))%path.
Proof.
  unfold derivatives_dest, truediv.
  assert (Hanchor : String.eqb (anchor (Path_of (String "/" rest))) "" = false).
  { unfold Path_of. cbn [anchor]. destruct rest as [|c1 [|c2 rest]]; [reflexivity| |].
    - destruct c1 as [[] [] [] [] [] [] [] []]; reflexivity.
    - destruct c1 as [[] [] [] [] [] [] [] []]; try reflexivity;
      destruct c2 as [[] [] [] [] [] [] [] []]; reflexivity. }
  unfold joinpath at 2. rewrite Hanchor. reflexivity.
Qed.

Lemma sub_prefix_inj (a b : string) : "sub-" +:+ a = "sub-" +:+ b -> a = b.
Proof.
  change ("sub-" +:+ a) with (String "s" (String "u" (String "b" (String "-" a)))).
  change ("sub-" +:+ b) with (String "s" (String "u" (String "b" (String "-" b)))).
  intros H. by injection H.
Qed.

Lemma key_derivatives_dest_plain (dataset_id app_name row_id : string) :
  contains "/" app_name = false -> is_component app_name = true ->
  contains "/" row_id = false ->
  key (derivatives_dest dataset_id app_name row_id)
  = (anchor (Path_of dataset_id) :: parts (Path_of dataset_id)
     ++ ["derivatives"; app_name]) ++ ["sub-" +:+ row_id].
Proof.
  intros Ha Hc Hr. rewrite (derivatives_dest_plain _ _ _ Ha Hc Hr).
  unfold key. cbn [anchor parts]. cbn [app]. f_equal.
  by rewrite <- app_assoc.
Qed.

Lemma strip_prefix_refl (l : list string) : strip_prefix l l = Some [].
Proof. rewrite <- (app_nil_r l) at 2. apply strip_prefix_app. Qed.

(** After a copy the destination exists. *)
Lemma copytree_dest_exists (src dst : Path) (fs fs1 : FS) :
  copytree src dst fs = Ok fs1 -> exists_at fs1 dst = true.
Proof.
  unfold copytree.
  destruct (fs_lookup fs (key src)) as [[|c]|]; try discriminate.
  destruct (exists_at fs dst); [discriminate|].
  destruct (blocked fs dst); [discriminate|].
  intros [= <-]. unfold exists_at, fs_lookup, key.
  destruct (parts dst) as [|p ps] eqn:Hp; [reflexivity|].
  rewrite String.eqb_refl, (strip_prefix_refl (p :: ps)). reflexivity.
Qed.

(** A copy onto an existing destination raises. *)
Lemma copytree_exists_raises (src dst : Path) (fs : FS) :
  exists_at fs dst = true -> exists e, copytree src dst fs = Raise e.
Proof.
  intros Hex. unfold copytree.
  destruct (fs_lookup fs (key src)) as [[|c]|]; rewrite ?Hex; eauto.
Qed.

Lemma lookup_map {A B} (f : A -> B) (l : list A) (j : nat) :
  map f l !! j = f <$> l !! j.
Proof.
  revert j. induction l as [|x l IH]; intros [|j]; cbn; auto.
Qed.

Lemma pairs_flatten (kvs : list (string * string)) : pairs (flatten_pairs kvs) = kvs.
Proof.
  induction kvs as [|[k v] kvs IH]; cbn; [reflexivity | by rewrite IH].
Qed.

Lemma flatten_pairs_plain (kvs : list (string * string)) :
  Forall (fun kv => plain_word (fst kv) = true /\ plain_word (snd kv) = true) kvs ->
  Forall (fun w => plain_word w = true) (flatten_pairs kvs).
Proof.
  induction 1 as [|[k v] kvs [Hk Hv] _ IH]; cbn; repeat constructor; auto.
Qed.

(** The words of pairs of plain words are the tokens of their string. *)
Lemma json_edit_tokens_pairs (kvs : list (string * string)) :
  Forall (fun kv => plain_word (fst kv) = true /\ plain_word (snd kv) = true) kvs ->
  json_edit_tokens (join_with " " (flatten_pairs kvs)) = Ok (flatten_pairs kvs).
Proof.
  intros Hkvs. unfold json_edit_tokens.
  destruct kvs as [|[k v] kvs]; [reflexivity|].
  rewrite (shlex_split_words _ (flatten_pairs_plain _ Hkvs)).
  inversion Hkvs as [|? ? [Hk _] _]; subst. cbn [fst] in Hk.
  cbn [flatten_pairs].
  change (join_with " " (k :: v :: flatten_pairs kvs))
    with (k +:+ String " " (join_with " " (v :: flatten_pairs kvs))).
  destruct k as [|c k]; [discriminate|]. reflexivity.
Qed.

(** Fields of the task, by index. *)
Theorem input_fields_lookup (parameters : list (string * PyType)) :
  List.length (input_fields parameters) = 7 + List.length parameters
  /\ (forall i, i < 7 -> input_fields parameters !! i = BIDS_APP_INPUTS !! i)
  /\ (forall j, input_fields parameters !! (7 + j) = param_field <$> parameters !! j).
Proof.
  rewrite input_fields_app. split; [|split].
  - rewrite length_app, length_map. reflexivity.
  - intros i Hi. by apply lookup_app_l.
  - intros j. rewrite lookup_app_r by (cbn; lia).
    replace (7 + j - List.length BIDS_APP_INPUTS) with j by (cbn; lia).
    apply lookup_map.
Qed.

Section FurtherProperties.

Context {S Row : Type}.
Variable add_sink : string -> Datatype -> string -> S -> Result S.
Variable get_row : Clinical -> string -> S -> Result Row.
Variable row_setitem : Row -> string -> Value -> S -> Result S.
Variable row_getitem : Row -> string -> FS -> S -> Result Value.
Variable connect : S -> Result S.
Variable disconnect : S -> S.
Variable ClassResolver : string -> Result Datatype.
Variable create_dataset :
  string -> string -> list (list string) -> list string -> FS
  -> Result (@FrameSet S * FS).
Variable frametree_version : string.

Abbreviation BidsApp' := (BidsApp ClassResolver create_dataset frametree_version).
Abbreviation make_dataset' := (make_dataset create_dataset frametree_version).
Abbreviation ToBids' := (ToBids add_sink get_row row_setitem connect disconnect).
Abbreviation ExtractBids' :=
  (ExtractBids add_sink get_row row_getitem connect disconnect).
Abbreviation stage_in_store' :=
  (stage_in_store add_sink get_row row_setitem connect disconnect).
Abbreviation extract_out_store' :=
  (extract_out_store add_sink get_row row_getitem connect disconnect).

(** ** Stage-In *)

(** Key/value pairs of plain words, written out with single spaces, are
    exactly the user's part of the edits [ToBids] installs, after the fixed
    ones; this holds whatever becomes of the rest of the run. *)
Theorem ToBids_edits_round_trip row_frequency inputs row_id fixed_json_edits
    input_values (w : @World S) (kvs : list (string * string)) :
  Forall (fun kv => plain_word (fst kv) = true /\ plain_word (snd kv) = true) kvs ->
  json_edits (w_frameset (snd (ToBids' row_frequency inputs row_id
                                 (join_with " " (flatten_pairs kvs)) fixed_json_edits
                                 input_values w)))
  = fixed_json_edits ++ map (fun kv => JsonEdit.mk (fst kv) (snd kv)) kvs.
Proof.
  intros Hkvs. destruct w as [fs [i je s0] log tmp].
  destruct (ToBids_run add_sink get_row row_setitem connect disconnect
              row_frequency inputs row_id _ fixed_json_edits input_values
              fs i je s0 log tmp _ (json_edit_tokens_pairs kvs Hkvs)) as (log' & -> & _).
  cbn [snd w_frameset json_edits].
  by rewrite effective_json_edits_pairs, pairs_flatten.
Qed.

(** A value read for a name stays what it is over writes to other names. *)
Lemma writes_preserve (row : Row) (fs : FS) (n : string) (x : Value)
    (l : list (string * Value)) (s s' : S) :
  (forall r n n' v x fs s s',
     n <> n' -> row_setitem r n' v s = Ok s' ->
     row_getitem r n fs s = Ok x -> row_getitem r n fs s' = Ok x) ->
  run_ops (map (fun iv => row_setitem row (fst iv) (snd iv)) l) s = (Ok tt, s') ->
  ~ In n (map fst l) ->
  row_getitem row n fs s = Ok x -> row_getitem row n fs s' = Ok x.
Proof.
  clear add_sink get_row connect disconnect ClassResolver create_dataset
        frametree_version.
  intros Hframe. revert s. induction l as [|[n' v] l IH]; intros s; cbn.
  - by intros [= <-].
  - destruct (row_setitem row n' v s) as [s1|] eqn:Hw; [|discriminate].
    intros Hrun Hnotin Hread. apply (IH s1 Hrun); [tauto|].
    eapply Hframe; eauto.
Qed.

Lemma writes_read_back (row : Row) (fs : FS) (l : list (string * Value)) (s s' : S) :
  (forall r n v fs s s', row_setitem r n v s = Ok s' -> row_getitem r n fs s' = Ok v) ->
  (forall r n n' v x fs s s',
     n <> n' -> row_setitem r n' v s = Ok s' ->
     row_getitem r n fs s = Ok x -> row_getitem r n fs s' = Ok x) ->
  run_ops (map (fun iv => row_setitem row (fst iv) (snd iv)) l) s = (Ok tt, s') ->
  List.NoDup (map fst l) ->
  forall n v, In (n, v) l -> row_getitem row n fs s' = Ok v.
Proof.
  clear add_sink get_row connect disconnect ClassResolver create_dataset
        frametree_version.
  intros Hrw Hframe. revert s. induction l as [|[n0 v0] l IH]; intros s; cbn.
  - intros _ _ n v [].
  - destruct (row_setitem row n0 v0 s) as [s1|] eqn:Hw; [|discriminate].
    intros Hrun Hnd n v Hin. apply List.NoDup_cons_iff in Hnd as [Hnotin Hnd].
    destruct Hin as [[= <- <-]|Hin].
    + eapply writes_preserve; eauto.
    + eapply IH; eauto.
Qed.

(** Round trip of Stage-In, for a store in which a read returns what was
    written last under the name, writes to other names leave it, and
    leaving the connection changes no read: after a run of [ToBids] that
    completes, each provided value is read back from the addressed row
    under its name. *)
Theorem ToBids_read_back row_frequency inputs row_id user_json_edits fixed_json_edits
    input_values (w w' : @World S) :
  (forall r n v fs s s', row_setitem r n v s = Ok s' -> row_getitem r n fs s' = Ok v) ->
  (forall r n n' v x fs s s',
     n <> n' -> row_setitem r n' v s = Ok s' ->
     row_getitem r n fs s = Ok x -> row_getitem r n fs s' = Ok x) ->
  (forall r n fs s, row_getitem r n fs (disconnect s) = row_getitem r n fs s) ->
  List.NoDup (map fst (provided input_values)) ->
  ToBids' row_frequency inputs row_id user_json_edits fixed_json_edits input_values w
  = (Ok true, w') ->
  exists s1 row,
    run_ops (sink_ops add_sink inputs) (state (w_frameset w)) = (Ok tt, s1) /\
    get_row row_frequency row_id s1 = Ok row /\
    forall n v, In (n, v) (provided input_values) ->
      row_getitem row n (w_fs w') (state (w_frameset w')) = Ok v.
Proof.
  clear ClassResolver create_dataset frametree_version.
  intros Hrw Hframe Hdisc Hnd Hrun.
  destruct (json_edit_tokens user_json_edits) as [toks|e] eqn:Htoks;
    [|unfold ToBids, bind, lift in Hrun; rewrite Htoks in Hrun; discriminate].
  destruct w as [fs [i je s0] log tmp].
  destruct (ToBids_run add_sink get_row row_setitem connect disconnect
              row_frequency inputs row_id user_json_edits fixed_json_edits input_values
              fs i je s0 log tmp toks Htoks) as (log' & Heq & _).
  rewrite Heq in Hrun. clear Heq. injection Hrun as Hok <-.
  cbn [w_fs w_frameset state]. unfold stage_in_store, write_ops in *.
  destruct (run_ops (sink_ops add_sink inputs) s0) as [[[]|e] s1]; [|discriminate].
  destruct (get_row row_frequency row_id s1) as [row|e] eqn:Hrow; [|discriminate].
  destruct (connect s1) as [s2|e]; [|discriminate].
  destruct (run_ops _ s2) as [[[]|e] s3] eqn:Hw; [|discriminate].
  exists s1, row. repeat split; [exact Hrow|].
  intros n v Hin. cbn [snd]. rewrite Hdisc.
  eapply writes_read_back; eauto.
Qed.

(** A run of [ToBids] that fails at the row (the sinks are registered, the
    row is not found) raises the error of the lookup: the edits are
    installed and the sinks registered, the connection is not entered,
    nothing is written and nothing logged. *)
Theorem ToBids_row_not_found row_frequency inputs row_id user_json_edits
    fixed_json_edits input_values (w : @World S) toks s1 e :
  json_edit_tokens user_json_edits = Ok toks ->
  run_ops (sink_ops add_sink inputs) (state (w_frameset w)) = (Ok tt, s1) ->
  get_row row_frequency row_id s1 = Raise e ->
  ToBids' row_frequency inputs row_id user_json_edits fixed_json_edits input_values w
  = (Raise e,
     mkWorld (w_fs w)
       (mkFrameSet (id (w_frameset w)) (effective_json_edits fixed_json_edits toks) s1)
       (w_log w) (w_tmp w)).
Proof.
  intros Htoks Hreg Hrow. destruct w as [fs [i je s0] log tmp].
  cbn [w_fs w_frameset w_log w_tmp id state] in *.
  unfold ToBids, bind, lift. rewrite Htoks.
  unfold set_json_edits, frameset_add_sink. cbn [w_fs w_frameset w_log w_tmp id state].
  rewrite (for_each_on_store
             (fun inpt => add_sink (BidsInput.name inpt) (BidsInput.datatype inpt)
                                   (BidsInput.path inpt))).
  fold (sink_ops add_sink inputs). rewrite Hreg. cbn [fst snd].
  unfold frameset_row. cbn [w_frameset state]. rewrite Hrow. reflexivity.
Qed.

(** The connection is always left.  Once [ToBids] has entered it, the state
    it leaves is the one of the last write made, disconnected, whether the
    writes all succeed or one of them raises; once [ExtractBids] has
    entered it, the state it leaves is disconnected whether the reads
    succeed or not. *)
Theorem connection_left row_frequency row_id (w : @World S) row s1 s2 :
  get_row row_frequency row_id s1 = Ok row ->
  connect s1 = Ok s2 ->
  (forall inputs user_json_edits fixed_json_edits input_values toks,
     json_edit_tokens user_json_edits = Ok toks ->
     run_ops (sink_ops add_sink inputs) (state (w_frameset w)) = (Ok tt, s1) ->
     state (w_frameset (snd (ToBids' row_frequency inputs row_id user_json_edits
                               fixed_json_edits input_values w)))
     = disconnect (snd (run_ops (write_ops row_setitem row input_values) s2)))
  /\
  (forall app_name output_dir outputs app_completed fs1,
     copytree output_dir (derivatives_dest (id (w_frameset w)) app_name row_id) (w_fs w)
     = Ok fs1 ->
     get_row row_frequency row_id (state (w_frameset w)) = Ok row ->
     run_ops (output_sink_ops add_sink app_name outputs) (state (w_frameset w))
     = (Ok tt, s1) ->
     state (w_frameset (snd (ExtractBids' row_frequency app_name output_dir outputs
                               row_id app_completed w)))
     = disconnect s2).
Proof.
  intros Hrow Hconn. destruct w as [fs [i je s0] log tmp].
  cbn [w_fs w_frameset id state]. split.
  - intros inputs user_json_edits fixed_json_edits input_values toks Htoks Hreg.
    destruct (ToBids_run add_sink get_row row_setitem connect disconnect
                row_frequency inputs row_id user_json_edits fixed_json_edits
                input_values fs i je s0 log tmp toks Htoks) as (log' & -> & _).
    cbn [snd w_frameset state]. unfold stage_in_store. rewrite Hreg, Hrow, Hconn.
    destruct (run_ops (write_ops row_setitem row input_values) s2) as [[[]|e] s3];
      reflexivity.
  - intros app_name output_dir outputs app_completed fs1 Hcopy Hrow0 Hreg.
    rewrite ExtractBids_run, Hcopy. cbn [snd w_frameset state].
    unfold extract_out_store. rewrite Hrow0, Hreg, Hconn.
    destruct (read_all row_getitem row outputs fs1 s2); reflexivity.
Qed.

(** ** Extract-Out *)

(** Nothing is rolled back, and a second run is refused.  Once the copy is
    made the copied tree stays, whatever becomes of the rest of the run
    (a missing row, a refused sink, a failed read); and every later run of
    [ExtractBids] for the same app and row raises and leaves the world as
    it is. *)
Theorem ExtractBids_rerun_refused row_frequency app_name output_dir outputs row_id
    app_completed (w : @World S) fs1 :
  copytree output_dir (derivatives_dest (id (w_frameset w)) app_name row_id) (w_fs w)
  = Ok fs1 ->
  let w1 := snd (ExtractBids' row_frequency app_name output_dir outputs row_id
                   app_completed w) in
  w_fs w1 = fs1 /\
  forall row_frequency' output_dir' outputs' app_completed',
    exists e, ExtractBids' row_frequency' app_name output_dir' outputs' row_id
                app_completed' w1 = (Raise e, w1).
Proof.
  intros Hcopy. destruct w as [fs [i je s0] log tmp]. cbv zeta.
  cbn [w_fs w_frameset id] in Hcopy.
  rewrite ExtractBids_run, Hcopy. cbn [snd w_fs]. split; [reflexivity|].
  intros row_frequency' output_dir' outputs' app_completed'.
  rewrite ExtractBids_run.
  destruct (copytree_exists_raises output_dir' _ _ (copytree_dest_exists _ _ _ _ Hcopy))
    as [e ->].
  by exists e.
Qed.

(** Rows do not interfere: for plain names, a run of [ExtractBids] for one
    row leaves the file system at and below the destination of every other
    row of the app as it was. *)
Theorem ExtractBids_other_rows_untouched row_frequency app_name output_dir outputs
    row_id row_id' app_completed (w : @World S) (rel : list string) :
  contains "/" app_name = false -> is_component app_name = true ->
  contains "/" row_id = false -> contains "/" row_id' = false ->
  row_id <> row_id' ->
  w_fs (snd (ExtractBids' row_frequency app_name output_dir outputs row_id
               app_completed w))
       (key (derivatives_dest (id (w_frameset w)) app_name row_id') ++ rel)
  = w_fs w (key (derivatives_dest (id (w_frameset w)) app_name row_id') ++ rel).
Proof.
  intros Ha Hc Hr Hr' Hne. destruct w as [fs [i je s0] log tmp].
  cbn [w_fs w_frameset id]. rewrite ExtractBids_run.
  assert (Hsub : "sub-" +:+ row_id <> "sub-" +:+ row_id')
    by (intros Heq; by apply Hne, sub_prefix_inj).
  pose proof (key_derivatives_dest_plain i app_name row_id Ha Hc Hr) as Hk.
  pose proof (key_derivatives_dest_plain i app_name row_id' Ha Hc Hr') as Hk'.
  revert Hk Hk'.
  generalize (derivatives_dest i app_name row_id) as dest.
  generalize (derivatives_dest i app_name row_id') as dest'.
  generalize (anchor (Path_of i) :: parts (Path_of i) ++ ["derivatives"; app_name])
    as base.
  intros base dest' dest Hk Hk'.
  destruct (copytree output_dir dest fs) as [fs1|e] eqn:Hcopy; [|reflexivity].
  cbn [snd w_fs]. unfold copytree in Hcopy.
  destruct (fs_lookup fs (key output_dir)) as [[|c]|]; try discriminate.
  destruct (exists_at fs dest); [discriminate|].
  destruct (blocked fs dest); [discriminate|].
  assert (Hfs1 : forall k,
             fs1 k = match strip_prefix (key dest) k with
                     | Some [] => Some Dir
                     | Some rel => fs (key output_dir ++ rel)
                     | None => makedirs dest fs k
                     end)
    by (intros k; injection Hcopy as <-; reflexivity).
  rewrite Hfs1.
  unfold makedirs, is_ancestor_or_self. rewrite Hk, Hk', <- app_assoc.
  cbn [app].
  rewrite (strip_prefix_diff base [] rel _ _ Hsub).
  rewrite (strip_prefix_diff base rel [] _ _ (not_eq_sym Hsub)).
  destruct (fs (base ++ ("sub-" +:+ row_id') :: rel)); reflexivity.
Qed.

(** ** The workflow constructor *)

(** What making a directory changes: not the dataset, not the log, and
    nothing that is in the file system already. *)
Lemma dir_or_temp_frame (d : option Path) (w : @World S) :
  w_frameset (snd (dir_or_temp d w)) = w_frameset w /\
  w_log (snd (dir_or_temp d w)) = w_log w /\
  forall k n, w_fs w k = Some n -> w_fs (snd (dir_or_temp d w)) k = Some n.
Proof.
  destruct d as [d|]; unfold dir_or_temp, bind, fs_mkdir, mkdtemp, ret; cbn.
  - unfold mkdir_p. destruct (fs_lookup (w_fs w) (key d)) as [[|c]|]; cbn; auto.
    destruct (blocked (w_fs w) d); cbn; auto.
    repeat split. intros k n Hk. unfold makedirs. by rewrite Hk.
  - repeat split. intros k n Hk. unfold makedirs. by rewrite Hk.
Qed.

(** Given a [FrameSet], [BidsApp] only makes directories: whether it
    returns or raises, the dataset and the log are as they were (no sink, no
    edit, no write), and nothing that was in the file system is changed or
    removed. *)
Theorem BidsApp_keeps_dataset name row_id inputs outputs executable container_image
    parameters row_frequency container_type app_output_dir app_work_dir
    fixed_json_edits flags (w : @World S) :
  let w' := snd (BidsApp' name row_id inputs outputs executable container_image
                   parameters row_frequency container_type DatasetObject app_output_dir
                   app_work_dir fixed_json_edits flags w) in
  w_frameset w' = w_frameset w /\
  w_log w' = w_log w /\
  forall k n, w_fs w k = Some n -> w_fs w' k = Some n.
Proof.
  cbv zeta. rewrite BidsApp_run.
  pose proof (dir_or_temp_frame app_output_dir w) as (Hf1 & Hl1 & Hfs1).
  destruct (dir_or_temp app_output_dir w) as [[out_dir|?] w1]; cbn [snd] in *;
    [|by auto].
  pose proof (dir_or_temp_frame app_work_dir w1) as (Hf2 & Hl2 & Hfs2).
  destruct (dir_or_temp app_work_dir w1) as [[work_dir|?] w2]; cbn [snd] in *.
  2: { rewrite Hf2, Hl2. auto. }
  assert (Hall : w_frameset w2 = w_frameset w /\ w_log w2 = w_log w /\
                 forall k n, w_fs w k = Some n -> w_fs w2 k = Some n).
  { rewrite Hf2, Hl2. auto. }
  destruct (resolve_frequency row_frequency) as [f|?]; [|exact Hall].
  unfold make_dataset, ret. cbn [snd].
  destruct (ObjectListConverter _ inputs) as [ins|?]; [|exact Hall].
  destruct (ObjectListConverter _ outputs) as [outs|?]; exact Hall.
Qed.

(** The descriptors are checked after the directories are made and the
    dataset is set up: when the conversion of the inputs raises, [BidsApp]
    raises that error in the world that the dataset step has left, which it
    entered with the output and the working directory made.  This is so for
    every dataset argument; with a [FrameSet] given the dataset step changes
    nothing, and the world is the one with the two directories made. *)
Theorem BidsApp_checks_after_mkdir name row_id inputs outputs executable
    container_image parameters row_frequency container_type dataset (d1 d2 : Path)
    fixed_json_edits flags (w w3 : @World S) fs1 fs2 f e :
  mkdir_p d1 (w_fs w) = Ok fs1 ->
  mkdir_p d2 fs1 = Ok fs2 ->
  resolve_frequency row_frequency = Ok f ->
  make_dataset' dataset name (set_fs fs2 w) = (Ok tt, w3) ->
  ObjectListConverter (BidsInput_of_dict ClassResolver) inputs = Raise e ->
  BidsApp' name row_id inputs outputs executable container_image parameters
    row_frequency container_type dataset (Some d1) (Some d2)
    fixed_json_edits flags w
  = (Raise e, w3)
  /\ (dataset = DatasetObject -> w3 = set_fs fs2 w).
Proof.
  intros H1 H2 Hf Hds Hi.
  assert (Hdir : forall d (w0 : @World S) fs',
             mkdir_p d (w_fs w0) = Ok fs' -> dir_or_temp (Some d) w0 = (Ok d, set_fs fs' w0)).
  { intros d w0 fs' Hd. unfold dir_or_temp, bind, fs_mkdir, ret. by rewrite Hd. }
  split.
  - rewrite BidsApp_run, (Hdir d1 w fs1 H1), (Hdir d2 (set_fs fs1 w) fs2 H2), Hf.
    change (set_fs fs2 (set_fs fs1 w)) with (set_fs fs2 w).
    rewrite Hds, Hi. reflexivity.
  - intros ->. unfold make_dataset, ret in Hds. congruence.
Qed.

(** A frequency given by a name that [Clinical] does not have: [BidsApp]
    raises, and it has not come to the dataset: none is made, and the one
    of the world is as it was. *)
Theorem BidsApp_unknown_frequency name row_id inputs outputs executable
    container_image parameters row_frequency container_type dataset app_output_dir
    app_work_dir fixed_json_edits flags (w : @World S) e :
  resolve_frequency row_frequency = Raise e ->
  let run := BidsApp' name row_id inputs outputs executable container_image
               parameters row_frequency container_type dataset app_output_dir
               app_work_dir fixed_json_edits flags w in
  (exists e', fst run = Raise e') /\
  (is_ok (fst (dir_or_temp app_output_dir w)) = true ->
   is_ok (fst (dir_or_temp app_work_dir (snd (dir_or_temp app_output_dir w)))) = true ->
   fst run = Raise e) /\
  w_frameset (snd run) = w_frameset w.
Proof.
  intros Hf. cbv zeta. rewrite BidsApp_run.
  pose proof (dir_or_temp_frame app_output_dir w) as (Hf1 & _).
  destruct (dir_or_temp app_output_dir w) as [[out_dir|?] w1]; cbn [fst snd is_ok] in *;
    [|repeat split; eauto; discriminate].
  pose proof (dir_or_temp_frame app_work_dir w1) as (Hf2 & _).
  destruct (dir_or_temp app_work_dir w1) as [[work_dir|?] w2]; cbn [fst snd is_ok] in *.
  - rewrite Hf. cbn [fst snd]. repeat split; eauto. congruence.
  - repeat split; eauto; [discriminate | congruence].
Qed.

(** A dictionary without a path is no input descriptor, whatever else it
    holds: it is refused with a [TypeError], the class resolver not
    consulted.  It is an output descriptor, with no path, as soon as it
    holds a name and a datatype the resolver knows, and no other key. *)
Theorem descriptor_without_path (d : list (string * string)) :
  dict_get d "path" = None ->
  (exists msg, BidsInput_of_dict ClassResolver d = Raise (TypeError msg)) /\
  (forall n dt c,
     known_keys ["name"; "path"; "datatype"] d = true ->
     dict_get d "name" = Some n -> dict_get d "datatype" = Some dt ->
     ClassResolver dt = Ok c ->
     BidsOutput_of_dict ClassResolver d = Ok (BidsOutput.mk n c None)).
Proof.
  intros Hpath. split.
  - unfold BidsInput_of_dict. rewrite Hpath.
    destruct (negb _); [eauto|].
    destruct (dict_get d "name"); eauto.
  - intros n dt c Hkeys Hn Hdt Hc. unfold BidsOutput_of_dict.
    rewrite Hkeys, Hn, Hdt, Hc, Hpath. reflexivity.
Qed.

End FurtherProperties.

(** ** The further properties on concrete runs *)

Lemma SelectInputs_spec_witness :
  SelectInputs ["T1w"; "bold"]
    (<["extra" := Bool true]> (<["bold" := Str "b"]> {["T1w" := Str "a"]}))
  = Ok (Tuple [Str "a"; Str "b"])
  /\ SelectInputs ["T1w"; "flair"; "bold"] {["T1w" := Str "a"]}
     = Raise (KeyError "flair").
Proof.
  split.
  - apply (SelectInputs_spec ["T1w"; "bold"]
             (<["bold" := Str "b"]> {["T1w" := Str "a"]})).
    + apply insert_subseteq. vm_compute. reflexivity.
    + apply (SelectInputs_spec ["T1w"; "bold"]).
      exists [Str "a"; Str "b"]. split; [|reflexivity].
      repeat constructor; vm_compute; reflexivity.
  - apply (SelectInputs_spec ["T1w"; "flair"; "bold"] {["T1w" := Str "a"]})
      with (pre := ["T1w"]) (post := ["bold"]).
    + reflexivity.
    + repeat constructor. exists (Str "a"). vm_compute. reflexivity.
    + vm_compute. reflexivity.
Defined.

Lemma derivatives_dest_distinct_witness :
  derivatives_dest "/ds" "myapp" "01" <> derivatives_dest "/ds" "myapp" "02".
Proof.
  apply derivatives_dest_distinct; try reflexivity. right. discriminate.
Defined.

Lemma input_fields_lookup_witness :
  input_fields [("verbose", Py.bool); ("n", PyClass "int")] !! 4%nat = Some flags_field
  /\ input_fields [("verbose", Py.bool); ("n", PyClass "int")] !! 8%nat
     = Some (param_field ("n", PyClass "int")).
Proof.
  destruct (input_fields_lookup [("verbose", Py.bool); ("n", PyClass "int")])
    as (_ & Hfixed & Hparam).
  split.
  - rewrite (Hfixed 4%nat ltac:(lia)). reflexivity.
  - exact (Hparam 1%nat).
Defined.

Lemma ToBids_edits_round_trip_witness :
  json_edits (w_frameset (snd (Mem.ToBids session [Mem.T1w] "01"
                                 "RepetitionTime 2.5 EchoTime 0.03"
                                 [JsonEdit.mk "a" "1"] Mem.the_input Mem.w0)))
  = [JsonEdit.mk "a" "1"; JsonEdit.mk "RepetitionTime" "2.5";
     JsonEdit.mk "EchoTime" "0.03"].
Proof.
  apply (ToBids_edits_round_trip Mem.add_sink Mem.get_row Mem.row_setitem Mem.connect
           Mem.disconnect session [Mem.T1w] "01" [JsonEdit.mk "a" "1"] Mem.the_input
           Mem.w0 [("RepetitionTime", "2.5"); ("EchoTime", "0.03")]).
  repeat constructor.
Defined.

Lemma KV_read_after_write (r : KV.Row) n v (fs : FS) s s' :
  KV.row_setitem r n v s = Ok s' -> KV.row_getitem r n fs s' = Ok v.
Proof.
  intros [= <-]. unfold KV.row_getitem. cbn [Mem.find_item].
  unfold Mem.row_eqb. by rewrite bool_decide_eq_true_2, !String.eqb_refl.
Qed.

Lemma KV_write_other (r : KV.Row) n n' v x (fs : FS) s s' :
  n <> n' -> KV.row_setitem r n' v s = Ok s' ->
  KV.row_getitem r n fs s = Ok x -> KV.row_getitem r n fs s' = Ok x.
Proof.
  intros Hne [= <-]. unfold KV.row_getitem. cbn [Mem.find_item].
  apply not_eq_sym, String.eqb_neq in Hne. by rewrite Hne, andb_false_r.
Qed.

Lemma ToBids_read_back_witness :
  KV.row_getitem (session, "01") "T1w" Mem.fs0
    (state (w_frameset (snd (KV.ToBids session [Mem.T1w; Mem.FLAIR] "01" "" []
                               [("T1w", Str "/tmp/in.nii.gz"); ("FLAIR", NOTHING);
                                ("bold", Str "/tmp/bold.nii.gz")] KV.w0))))
  = Ok (Str "/tmp/in.nii.gz").
Proof.
  destruct (ToBids_read_back KV.add_sink KV.get_row KV.row_setitem KV.row_getitem
              KV.connect KV.disconnect session [Mem.T1w; Mem.FLAIR] "01" "" []
              [("T1w", Str "/tmp/in.nii.gz"); ("FLAIR", NOTHING);
               ("bold", Str "/tmp/bold.nii.gz")] KV.w0
              (snd (KV.ToBids session [Mem.T1w; Mem.FLAIR] "01" "" []
                      [("T1w", Str "/tmp/in.nii.gz"); ("FLAIR", NOTHING);
                       ("bold", Str "/tmp/bold.nii.gz")] KV.w0))
              KV_read_after_write KV_write_other (fun _ _ _ _ => eq_refl))
    as (s1 & row & _ & Hrow & Hread).
  - repeat constructor; cbn; intuition discriminate.
  - reflexivity.
  - injection Hrow as <-. apply (Hread "T1w" (Str "/tmp/in.nii.gz")). left. reflexivity.
Defined.

Lemma ToBids_row_not_found_witness :
  fst (Mem.ToBids session [Mem.T1w] "02" "" [] Mem.the_input Mem.w0)
  = Raise (StoreError "no row 02")
  /\ Mem.items (state (w_frameset
       (snd (Mem.ToBids session [Mem.T1w] "02" "" [] Mem.the_input Mem.w0)))) = []
  /\ Mem.connections (state (w_frameset
       (snd (Mem.ToBids session [Mem.T1w] "02" "" [] Mem.the_input Mem.w0)))) = 0.
Proof.
  unfold Mem.ToBids.
  rewrite (ToBids_row_not_found Mem.add_sink Mem.get_row Mem.row_setitem Mem.connect
             Mem.disconnect session [Mem.T1w] "02" "" [] Mem.the_input Mem.w0 []
             (Mem.mkStore "/ds" [("T1w", Mem.mkColumn "NiftiGzX" "anat/T1w")]
                          [(session, "01")] [] 0)
             (StoreError "no row 02") eq_refl eq_refl eq_refl).
  repeat split.
Defined.

(** A write that raises inside the connection (no sink of that name): the
    connection is left all the same. *)
Lemma connection_left_witness :
  fst (Mem.ToBids session [Mem.T1w] "01" "" []
         [("T1w", Str "/tmp/in.nii.gz"); ("bold", Str "/tmp/bold.nii.gz")] Mem.w0)
  = Raise (KeyError "bold")
  /\ Mem.connections (state (w_frameset
       (snd (Mem.ToBids session [Mem.T1w] "01" "" []
               [("T1w", Str "/tmp/in.nii.gz"); ("bold", Str "/tmp/bold.nii.gz")]
               Mem.w0)))) = 0.
Proof.
  split; [vm_compute; reflexivity|].
  destruct (connection_left Mem.add_sink Mem.get_row Mem.row_setitem Mem.row_getitem
              Mem.connect Mem.disconnect session "01" Mem.w0 (session, "01")
              (Mem.mkStore "/ds" [("T1w", Mem.mkColumn "NiftiGzX" "anat/T1w")]
                           [(session, "01")] [] 0)
              (Mem.mkStore "/ds" [("T1w", Mem.mkColumn "NiftiGzX" "anat/T1w")]
                           [(session, "01")] [] 1)
              eq_refl eq_refl) as (Hstage & _).
  unfold Mem.ToBids.
  rewrite (Hstage [Mem.T1w] "" []
             [("T1w", Str "/tmp/in.nii.gz"); ("bold", Str "/tmp/bold.nii.gz")] []
             eq_refl eq_refl).
  reflexivity.
Defined.

(** A second run into [w0] after a first one, even with other outputs. *)
Lemma ExtractBids_rerun_refused_witness :
  exists e,
    Mem.ExtractBids session "myapp" (Path_of "/out") [Mem.report] "01" true
      (snd (Mem.ExtractBids session "myapp" (Path_of "/out") [Mem.recon] "01" true
              Mem.w0))
    = (Raise e,
       snd (Mem.ExtractBids session "myapp" (Path_of "/out") [Mem.recon] "01" true
              Mem.w0)).
Proof.
  destruct (ExtractBids_rerun_refused Mem.add_sink Mem.get_row Mem.row_getitem
              Mem.connect Mem.disconnect session "myapp" (Path_of "/out") [Mem.recon]
              "01" true Mem.w0 Mem.fs_copied eq_refl) as (_ & Hagain).
  exact (Hagain session (Path_of "/out") [Mem.report] true).
Defined.

(** In a dataset that holds the derivatives of row 01, a (refused or not)
    run for row 02 leaves them. *)
Lemma ExtractBids_other_rows_untouched_witness :
  w_fs (snd (Mem.ExtractBids session "myapp" (Path_of "/out") [Mem.report] "02" true
               Mem.w_again))
       ["/"; "ds"; "derivatives"; "myapp"; "sub-01"]
  = Some Dir.
Proof.
  exact (ExtractBids_other_rows_untouched Mem.add_sink Mem.get_row Mem.row_getitem
           Mem.connect Mem.disconnect session "myapp" (Path_of "/out") [Mem.report]
           "02" "01" true Mem.w_again [] eq_refl eq_refl eq_refl eq_refl
           ltac:(discriminate)).
Defined.

Lemma BidsApp_keeps_dataset_witness :
  w_frameset (snd (Mem.run_with [Mem.T1w] [Mem.recon] None None (inr "nowhere")))
  = w_frameset Mem.w0
  /\ w_fs (snd (Mem.run_with [Mem.T1w] [Mem.recon] None None (inr "session")))
          ["/"; "out"; "report.html"]
     = Some (File "report").
Proof.
  split.
  - apply (BidsApp_keeps_dataset Mem.ClassResolver Mem.create_dataset "1.0").
  - apply (BidsApp_keeps_dataset Mem.ClassResolver Mem.create_dataset "1.0"
             "myapp" "01" (map inl [Mem.T1w]) (map inl [Mem.recon]) "" None None
             (inr "session") "docker" (Some (Path_of "/out")) None None "--fast"
             Mem.w0).
    reflexivity.
Defined.

(** An input descriptor without its path, and a new dataset at [/newds]:
    the error comes after [/fresh] and [/work] have been made and the
    dataset created. *)
Lemma BidsApp_checks_after_mkdir_witness :
  fst (Mem.BidsApp "myapp" "01" [inr [("name", "T1w"); ("datatype", "NiftiGzX")]] []
         "" None None (inr "session") "docker" (DatasetAt "/newds")
         (Some (Path_of "/fresh")) (Some (Path_of "/work")) None "" Mem.w0)
  = Raise (TypeError "missing required keyword-only argument")
  /\ w_fs (snd (Mem.BidsApp "myapp" "01"
                  [inr [("name", "T1w"); ("datatype", "NiftiGzX")]] []
                  "" None None (inr "session") "docker" (DatasetAt "/newds")
                  (Some (Path_of "/fresh")) (Some (Path_of "/work")) None ""
                  Mem.w0)) ["/"; "fresh"]
     = Some Dir
  /\ id (w_frameset (snd (Mem.BidsApp "myapp" "01"
                            [inr [("name", "T1w"); ("datatype", "NiftiGzX")]] []
                            "" None None (inr "session") "docker" (DatasetAt "/newds")
                            (Some (Path_of "/fresh")) (Some (Path_of "/work")) None ""
                            Mem.w0)))
     = "/newds".
Proof.
  unfold Mem.BidsApp.
  destruct (BidsApp_checks_after_mkdir Mem.ClassResolver Mem.create_dataset "1.0"
              "myapp" "01" [inr [("name", "T1w"); ("datatype", "NiftiGzX")]] []
              "" None None (inr "session") "docker" (DatasetAt "/newds")
              (Path_of "/fresh") (Path_of "/work") None "" Mem.w0
              (snd (make_dataset Mem.create_dataset "1.0" (DatasetAt "/newds") "myapp"
                      (set_fs (makedirs (Path_of "/work")
                                 (makedirs (Path_of "/fresh") Mem.fs0)) Mem.w0)))
              (makedirs (Path_of "/fresh") Mem.fs0)
              (makedirs (Path_of "/work") (makedirs (Path_of "/fresh") Mem.fs0))
              session (TypeError "missing required keyword-only argument")
              eq_refl eq_refl eq_refl eq_refl eq_refl) as (Hrun & _).
  rewrite Hrun. repeat split; reflexivity.
Defined.

Lemma BidsApp_unknown_frequency_witness :
  fst (Mem.run_with [Mem.T1w] [Mem.recon] None None (inr "nowhere"))
  = Raise (KeyError "nowhere").
Proof.
  destruct (BidsApp_unknown_frequency Mem.ClassResolver Mem.create_dataset "1.0"
              "myapp" "01" (map inl [Mem.T1w]) (map inl [Mem.recon]) "" None None
              (inr "nowhere") "docker" DatasetObject (Some (Path_of "/out")) None None
              "--fast" Mem.w0
              (KeyError "nowhere") eq_refl) as (_ & Hraise & _).
  exact (Hraise eq_refl eq_refl).
Defined.

Lemma descriptor_without_path_witness :
  (exists msg,
     BidsInput_of_dict Mem.ClassResolver [("name", "recon"); ("datatype", "Directory")]
     = Raise (TypeError msg))
  /\ BidsOutput_of_dict Mem.ClassResolver [("name", "recon"); ("datatype", "Directory")]
     = Ok (BidsOutput.mk "recon" "Directory" None).
Proof.
  destruct (descriptor_without_path Mem.ClassResolver
              [("name", "recon"); ("datatype", "Directory")] eq_refl) as (Hin & Hout).
  split; [exact Hin|].
  exact (Hout "recon" "Directory" "Directory" eq_refl eq_refl eq_refl eq_refl).
Defined.
